(** * ts-error-value: [fetchEither] and its helpers

    A shallow embedding of [src/fetch-either.ts] (with [types.ts] and
    [utils.ts]).  The asynchronous functions are written in a small monad
    that carries the two effects the source has: an exception may be
    thrown (a rejected promise that is awaited throws), and the external
    collaborators are called in some order, which is recorded as a trace
    of events. *)

From Stdlib Require Import String Ascii List NArith ZArith Bool.
From Stdlib Require Import DecimalString SpecFloat.
Import ListNotations.
Open Scope string_scope.
Open Scope list_scope.
#[local] Set Warnings "-register-all".

(** ** JavaScript values *)

(** The values a decoded body or a schema output can be.  Numbers are
    IEEE doubles, an object keeps its properties in insertion order. *)
Inductive JsValue : Type :=
| JUndefined
| JNull
| JBool (b : bool)
| JNumber (n : spec_float)
| JString (s : string)
| JArray (items : list JsValue)
| JObject (props : list (string * JsValue))
| JFormData (entries : list (string * string))
| JBlob (mime : string) (bytes : list Byte.byte).

(** [ToBoolean]: what [if (v)] and [v && w] test. *)
Definition truthy (v : JsValue) : bool :=
  match v with
  | JUndefined | JNull => false
  | JBool b => b
  | JNumber (S754_zero _) | JNumber S754_nan => false
  | JNumber _ => true
  | JString s => negb (String.eqb s "")
  | JArray _ | JObject _ | JFormData _ | JBlob _ _ => true
  end.

(** [`${n}`] and [String(n)] for a non-negative integer. *)
Definition string_of_N (n : N) : string :=
  NilEmpty.string_of_uint (N.to_uint n).

(** [`${s}`] for a [string | null]. *)
Definition string_of_nullable (s : option string) : string :=
  match s with Some s => s | None => "null" end.

(** ** Thrown values *)

(** The constructors that the [instanceof] tests of the source tell apart.
    [OtherError] stands for [Error] itself and every subclass that is none
    of the first three. *)
Inductive ErrorClass := DOMException | TypeError | SyntaxError | OtherError.

Record JsError := mkJsError {
  err_class : ErrorClass;
  err_name : string;
  err_message : string;
  err_stack : option string
}.

(** Anything can be thrown: an [Error] object or any other value. *)
Inductive Thrown :=
| ThrownError (e : JsError)
| ThrownValue (v : JsValue).

Definition instanceof (t : Thrown) (c : ErrorClass) : bool :=
  match t, c with
  | ThrownError e, DOMException =>
      match err_class e with DOMException => true | _ => false end
  | ThrownError e, TypeError =>
      match err_class e with TypeError => true | _ => false end
  | ThrownError e, SyntaxError =>
      match err_class e with SyntaxError => true | _ => false end
  | ThrownError _, OtherError => true
  | ThrownValue _, _ => false
  end.

(** [e instanceof Error]: every error object, whatever its class. *)
Definition instanceof_Error (t : Thrown) : bool := instanceof t OtherError.

(** ** The effect monad *)

Inductive ResponseParser := text | formData | json | blob.

Definition RequestInfo := string.

(** The settings of a request that the examples use; [fetchEither] hands
    the object to the transport untouched. *)
Record RequestInit := mkRequestInit {
  method : option string;
  headers : list (string * string);
  body : option string
}.

(** A call of an external collaborator. *)
Inductive Event :=
| EvFetch (info : RequestInfo) (init : option RequestInit)
| EvGetReasonPhrase (status : N)
| EvBodyRead (parser : ResponseParser)
| EvSafeParse (input : JsValue).

Inductive Completion (A : Type) :=
| Normal (a : A)
| Throw (t : Thrown).
Arguments Normal {A} a.
Arguments Throw {A} t.

(** A computation completes normally or throws, and leaves the trace of
    the collaborator calls it made, oldest first. *)
Definition M (A : Type) : Type := (Completion A * list Event)%type.

Definition ret {A} (a : A) : M A := (Normal a, []).

Definition throw {A} (t : Thrown) : M A := (Throw t, []).

Definition bind {A B} (m : M A) (k : A -> M B) : M B :=
  match m with
  | (Normal a, tr) => let (c, tr') := k a in (c, tr ++ tr')
  | (Throw t, tr) => (Throw t, tr)
  end.

(** [try { m } catch (e) { h e }]. *)
Definition try_catch {A} (m : M A) (h : Thrown -> M A) : M A :=
  match m with
  | (Normal a, tr) => (Normal a, tr)
  | (Throw t, tr) => let (c, tr') := h t in (c, tr ++ tr')
  end.

(** Calling a collaborator: the call is recorded, its outcome is the
    computation's. *)
Definition call {A} (ev : Event) (outcome : Completion A) : M A :=
  (outcome, [ev]).

Definition result {A} (m : M A) : Completion A := fst m.
Definition trace {A} (m : M A) : list Event := snd m.

Declare Scope js_scope.
Delimit Scope js_scope with js.
Notation "x <- c ;; k" := (bind c (fun x => k))
  (at level 61, c at next level, right associativity) : js_scope.
Notation "' pat <- c ;; k" := (bind c (fun x => match x with pat => k end))
  (at level 61, pat pattern, c at next level, right associativity) : js_scope.
Open Scope js_scope.

(** ** ts-pattern's [match(x).with(p, h)...otherwise(h)] *)

(** The clauses are tried in the order written; the handler of the first
    one whose pattern accepts the value runs. *)
Fixpoint ts_match {I O : Type} (clauses : list ((I -> bool) * (I -> O)))
    (otherwise : I -> O) (x : I) : O :=
  match clauses with
  | [] => otherwise x
  | (p, h) :: rest => if p x then h x else ts_match rest otherwise x
  end.

(** ** Regular expressions ([utils.ts]) *)

(** The regular expressions of the source are sequences of literal
    characters, one of them followed by [.*]. *)
Inductive RegexAtom :=
| RChar (c : ascii)
| RDotStar.

Definition RegExp := list RegexAtom.

Definition literal (s : string) : RegExp :=
  map RChar (list_ascii_of_string s).

(** [.] matches everything but a line terminator. *)
Definition is_line_terminator (c : ascii) : bool :=
  (Ascii.eqb c "010"%char || Ascii.eqb c "013"%char)%bool.

(** Does the expression match a prefix of the string? *)
Fixpoint match_here (re : RegExp) : string -> bool :=
  match re with
  | [] => fun _ => true
  | RChar c :: re' => fun s =>
      match s with
      | String d s' => (Ascii.eqb c d && match_here re' s')%bool
      | EmptyString => false
      end
  | RDotStar :: re' =>
      fix star (s : string) : bool :=
        (match_here re' s ||
         match s with
         | String d s' => (negb (is_line_terminator d) && star s')%bool
         | EmptyString => false
         end)%bool
  end.

(** [RegExp.prototype.test] for an expression without flags and anchors:
    is there a match starting at some position? *)
Fixpoint test (re : RegExp) (s : string) : bool :=
  (match_here re s ||
   match s with
   | String _ s' => test re s'
   | EmptyString => false
   end)%bool.

(** [matchRegex expr = when((str) => expr.test(str))].  The value matched
    on is a [string | null]; [test] converts its argument to a string. *)
Definition matchRegex (expr : RegExp) : option string -> bool :=
  fun str => test expr (string_of_nullable str).

(** ** The error taxonomy ([types.ts], [fetch-either.ts] lines 7-37) *)

Record BaseError := mkBaseError {
  message : string;
  stack : option string
}.

(** [BaseError & { type: 'unknown' }] *)
Record UnknownError := mkUnknownError {
  unknown_base : BaseError
}.

(** [BaseError & { type: 'payload'; responseContentType; responseParser? }] *)
Record PayloadError := mkPayloadError {
  payload_base : BaseError;
  responseContentType : option string;
  responseParser : option ResponseParser
}.

(** [ResponsePayloadError = UnknownError | (BaseError & { type: 'payload' ... })] *)
Inductive ResponsePayloadError :=
| RPUnknown (e : UnknownError)
| RPPayload (e : PayloadError).

(** [BaseError & { type: 'http'; code; properties? }]; [properties] is
    [None] until the property is assigned. *)
Record HttpError := mkHttpError {
  http_base : BaseError;
  code : N;
  properties : option JsValue
}.

Record ErrorEntry := mkErrorEntry {
  entry_path : string;
  entry_message : string
}.

(** [BaseError & { type: 'response-validation'; input; errors }] *)
Record ResponseValidationError := mkResponseValidationError {
  validation_base : BaseError;
  input : JsValue;
  errors : list ErrorEntry
}.

Inductive FetchErrorType := FetchAbort | FetchType | FetchSyntax.

(** [BaseError & { type: 'abort' | 'type' | 'syntax' }] *)
Record FetchError := mkFetchError {
  fetch_base : BaseError;
  fetch_type : FetchErrorType
}.

Inductive FetchEitherError :=
| Http (e : HttpError)
| ResponseValidation (e : ResponseValidationError)
| Unknown (e : UnknownError)
| Payload (e : PayloadError)
| Fetch (e : FetchError).

(** A [ResponsePayloadError] is returned as a [FetchEitherError] as it is
    (the first union is part of the second). *)
Definition widen (e : ResponsePayloadError) : FetchEitherError :=
  match e with
  | RPUnknown u => Unknown u
  | RPPayload p => Payload p
  end.

(** The [type] tag of an error object. *)
Definition type_of (e : FetchEitherError) : string :=
  match e with
  | Http _ => "http"
  | ResponseValidation _ => "response-validation"
  | Unknown _ => "unknown"
  | Payload _ => "payload"
  | Fetch f =>
      match fetch_type f with
      | FetchAbort => "abort"
      | FetchType => "type"
      | FetchSyntax => "syntax"
      end
  end.

(** [EitherTuple<E, Value> = [E, null] | [null, Value]]: the two slots of
    the array the functions return.  [None] is a [null] error slot. *)
Definition EitherTuple (E : Type) : Type := (option E * JsValue)%type.

(** ** The collaborators *)

Module Response.
(** What the source reads of a [Response]: [ok], [status],
    [headers.get('Content-Type')], and the outcome of awaiting each of
    the four body readers. *)
Record t := mk {
  ok : bool;
  status : N;
  content_type : option string;
  text : Completion JsValue;
  formData : Completion JsValue;
  json : Completion JsValue;
  blob : Completion JsValue
}.
End Response.

(** A step of a Zod issue path: a property name or an array index. *)
Inductive PathSegment :=
| Key (k : string)
| Index (i : N).

Record ZodIssue := mkZodIssue {
  path : list PathSegment;
  issue_message : string
}.

Record ZodError := mkZodError {
  zod_stack : option string;
  issues : list ZodIssue
}.

Inductive SafeParseReturn :=
| SafeParseSuccess (data : JsValue)
| SafeParseError (error : ZodError).

(** A schema is used through [safeParse] only; the call may itself throw
    (a refinement or transform of the schema that throws). *)
Record ZodSchema := mkZodSchema {
  safeParse : JsValue -> Completion SafeParseReturn
}.

(** What the module finds around it: the global [fetch], the table of
    the http-status-codes package, and the stack trace the engine gives an
    [Error] created by that package. *)
Record Runtime := mkRuntime {
  fetch : RequestInfo -> option RequestInit -> Completion Response.t;
  statusCodeToReasonPhrase : N -> option string;
  lookup_stack : option string
}.

(** [getReasonPhrase] of http-status-codes: the phrase of the table, or
    [throw new Error(`Status code does not exist: ${statusCode}`)]. *)
Definition getReasonPhrase (rt : Runtime) (statusCode : N) : M string :=
  call (EvGetReasonPhrase statusCode)
    match statusCodeToReasonPhrase rt statusCode with
    | Some phrase => Normal phrase
    | None =>
        Throw (ThrownError
          {| err_class := OtherError;
             err_name := "Error";
             err_message := "Status code does not exist: " ++ string_of_N statusCode;
             err_stack := lookup_stack rt |})
    end.

(** An argument that may be left out, [null], or given. *)
Inductive Optional (A : Type) :=
| Undefined
| Null
| Given (a : A).
Arguments Undefined {A}.
Arguments Null {A}.
Arguments Given {A} a.

(** [x ?? undefined] *)
Definition or_undefined {A} (x : Optional A) : option A :=
  match x with
  | Given a => Some a
  | Undefined | Null => None
  end.

Record FetchEitherOptions := mkFetchEitherOptions {
  requestInfo : RequestInfo;
  requestInit : Optional RequestInit;
  errorPayloadSchema : option ZodSchema;
  successPayloadSchema : option ZodSchema
}.

(** ** [extractPayload] (lines 46-84) *)

Definition ResponseParser_eqb (a b : ResponseParser) : bool :=
  match a, b with
  | text, text | formData, formData | json, json | blob, blob => true
  | _, _ => false
  end.

(** ts-pattern's [.exhaustive()] throws when no clause matched. *)
Definition nonExhaustive : JsError :=
  {| err_class := OtherError;
     err_name := "NonExhaustiveError";
     err_message := "Pattern matching error: no pattern matches value";
     err_stack := None |}.

(** [await match(responseType).with('text', () => response.text())
    ... .exhaustive()] *)
Definition readBody (response : Response.t) (responseType : ResponseParser)
    : M JsValue :=
  ts_match
    [ (ResponseParser_eqb text,
       fun _ => call (EvBodyRead text) (Response.text response));
      (ResponseParser_eqb formData,
       fun _ => call (EvBodyRead formData) (Response.formData response));
      (ResponseParser_eqb json,
       fun _ => call (EvBodyRead json) (Response.json response));
      (ResponseParser_eqb blob,
       fun _ => call (EvBodyRead blob) (Response.blob response)) ]
    (fun _ => throw (ThrownError nonExhaustive))
    responseType.

Definition extractPayload (response : Response.t) (responseType : ResponseParser)
    : M (EitherTuple ResponsePayloadError) :=
  try_catch
    (extractedBody <- readBody response responseType ;;
     ret (None, extractedBody))
    (fun e =>
       let error :=
         RPUnknown {| unknown_base :=
                        {| message := "unkown error"; stack := None |} |} in
       match e with
       | ThrownError e' =>
           if (instanceof e TypeError || instanceof e SyntaxError)%bool then
             ret (Some (RPPayload
                    {| payload_base :=
                         {| message := "Failed to parse response";
                            stack := err_stack e' |};
                       responseContentType := Response.content_type response;
                       responseParser := Some responseType |}),
                  JNull)
           else
             (* e instanceof Error *)
             ret (Some (RPUnknown
                    {| unknown_base :=
                         {| message := err_message e';
                            stack := err_stack e' |} |}),
                  JNull)
       | ThrownValue _ =>
           (* no instanceof test holds: the initial [error] is returned *)
           ret (Some error, JNull)
       end).

(** ** [getResponsePayload] (lines 86-110) *)

(** [/image\/.*/] *)
Definition image_any : RegExp := literal "image/" ++ [RDotStar].

(** The patterns of the [match(contentType)] chain with the parser each
    one hands to [extractPayload], in the order of the source. *)
Definition contentTypeRules : list (RegExp * ResponseParser) :=
  [ (literal "application/json", json);
    (literal "text/plain", text);
    (literal "text/html", text);
    (literal "application/xml", text);
    (literal "multipart/form-data", formData);
    (literal "application/x-www-form-urlencoded", formData);
    (image_any, blob) ].

Definition unsupportedContentType (contentType : option string)
    : ResponsePayloadError :=
  RPPayload
    {| payload_base :=
         {| message := "unsupported content type: "
                         ++ string_of_nullable contentType;
            stack := None |};
       responseContentType := contentType;
       responseParser := None |}.

Definition getResponsePayload (response : Response.t)
    : M (EitherTuple ResponsePayloadError) :=
  let contentType := Response.content_type response in
  '(error, payload) <-
     ts_match
       (map (fun rule : RegExp * ResponseParser =>
               (matchRegex (fst rule),
                fun _ : option string => extractPayload response (snd rule)))
            contentTypeRules)
       (fun _ => ret (Some (unsupportedContentType contentType), JNull))
       contentType ;;
  match error with
  | Some error => ret (Some error, JNull)
  | None => ret (None, payload)
  end.

(** ** [fetchEither] (lines 147-261) *)

(** The string an element of a path becomes in [join]. *)
Definition segment_string (seg : PathSegment) : string :=
  match seg with
  | Key k => k
  | Index i => string_of_N i
  end.

(** [(issue) => ({ path: issue.path.join('.'), message: issue.message })] *)
Definition entry_of_issue (issue : ZodIssue) : ErrorEntry :=
  {| entry_path := String.concat "." (map segment_string (path issue));
     entry_message := issue_message issue |}.

(** The object built at lines 169-178 and again at lines 196-205. *)
Definition validationError (zodError : ZodError) (payload : JsValue)
    : ResponseValidationError :=
  {| validation_base :=
       {| message := "Response schema failed to parse the body";
          stack := zod_stack zodError |};
     input := payload;
     errors := map entry_of_issue (issues zodError) |}.

Definition set_properties (httpError : HttpError) (v : JsValue) : HttpError :=
  {| http_base := http_base httpError;
     code := code httpError;
     properties := Some v |}.

(** The [catch] block (lines 212-260). *)
Definition classifyFailure (error : Thrown) : EitherTuple FetchEitherError :=
  match error with
  | ThrownError e =>
      let base := {| message := err_message e; stack := err_stack e |} in
      if instanceof error DOMException then
        (Some (ts_match
                 [ (fun e : JsError => String.eqb (err_name e) "AbortError",
                    fun _ => Fetch {| fetch_base := base;
                                      fetch_type := FetchAbort |}) ]
                 (fun _ => Unknown {| unknown_base := base |})
                 e),
         JNull)
      else if instanceof error TypeError then
        (Some (Fetch {| fetch_base := base; fetch_type := FetchType |}), JNull)
      else if instanceof error SyntaxError then
        (Some (Fetch {| fetch_base := base; fetch_type := FetchSyntax |}), JNull)
      else
        (Some (Unknown {| unknown_base := base |}), JNull)
  | ThrownValue _ =>
      (Some (Unknown {| unknown_base :=
                          {| message := "unknown error"; stack := None |} |}),
       JNull)
  end.

Definition fetchEither (rt : Runtime) (options : FetchEitherOptions)
    : M (EitherTuple FetchEitherError) :=
  try_catch
    (let init := or_undefined (requestInit options) in
     response <- call (EvFetch (requestInfo options) init)
                      (fetch rt (requestInfo options) init) ;;
     if negb (Response.ok response) then
       reason <- getReasonPhrase rt (Response.status response) ;;
       let httpError :=
         {| http_base := {| message := reason; stack := None |};
            code := Response.status response;
            properties := None |} in
       '(payloadError, payload) <- getResponsePayload response ;;
       match payloadError with
       | Some payloadError => ret (Some (widen payloadError), JNull)
       | None =>
           match errorPayloadSchema options with
           | Some schema =>
               safeParseResponse <-
                 call (EvSafeParse payload) (safeParse schema payload) ;;
               match safeParseResponse with
               | SafeParseSuccess data =>
                   ret (Some (Http (set_properties httpError data)), JNull)
               | SafeParseError zodError =>
                   ret (Some (ResponseValidation
                                (validationError zodError payload)), JNull)
               end
           | None =>
               ret (Some (Http (set_properties httpError payload)), JNull)
           end
       end
     else
       '(error, body) <- getResponsePayload response ;;
       match error with
       | Some error => ret (Some (widen error), JNull)
       | None =>
           match truthy body, successPayloadSchema options with
           | true, Some schema =>
               safeParseResponse <-
                 call (EvSafeParse body) (safeParse schema body) ;;
               match safeParseResponse with
               | SafeParseSuccess data => ret (None, data)
               | SafeParseError zodError =>
                   ret (Some (ResponseValidation
                                (validationError zodError body)), JNull)
               end
           | _, _ => ret (None, body)
           end
       end)
    (fun error => ret (classifyFailure error)).

(** ** Vocabulary of the properties *)

(** The reader that [readBody] calls for a parser. *)
Definition reader (response : Response.t) (p : ResponseParser)
    : Completion JsValue :=
  match p with
  | text => Response.text response
  | formData => Response.formData response
  | json => Response.json response
  | blob => Response.blob response
  end.

(** The first rule of the chain whose pattern accepts the content type. *)
Definition first_rule (contentType : option string)
    : option (RegExp * ResponseParser) :=
  find (fun rule => matchRegex (fst rule) contentType) contentTypeRules.

(** The outcome of [await fetch(requestInfo, requestInit ?? undefined)]
    (line 149) and the event of that call. *)
Definition transportOutcome (rt : Runtime) (options : FetchEitherOptions)
    : Completion Response.t :=
  fetch rt (requestInfo options) (or_undefined (requestInit options)).

Definition fetchEvent (options : FetchEitherOptions) : Event :=
  EvFetch (requestInfo options) (or_undefined (requestInit options)).

(** The two slots exclude each other: an error and no value, or no error
    and a value. *)
Definition exclusive_slots {E} (t : EitherTuple E) : Prop :=
  (fst t <> None /\ snd t = JNull) \/ (fst t = None /\ snd t <> JNull).

(** The [type] tags of the five variants; the fetch variant has three. *)
Definition variant_tags : list string :=
  ["unknown"; "http"; "payload"; "response-validation";
   "abort"; "type"; "syntax"].

(** What the [catch] blocks copy from an error object. *)
Definition base_of_error (e : JsError) : BaseError :=
  {| message := err_message e; stack := err_stack e |}.

(** Which collaborator an event is a call of, and how often a trace
    calls it. *)
Definition is_fetch (ev : Event) : bool :=
  match ev with EvFetch _ _ => true | _ => false end.

Definition is_lookup (ev : Event) : bool :=
  match ev with EvGetReasonPhrase _ => true | _ => false end.

Definition is_body_read (ev : Event) : bool :=
  match ev with EvBodyRead _ => true | _ => false end.

Definition is_safe_parse (ev : Event) : bool :=
  match ev with EvSafeParse _ => true | _ => false end.

Definition calls (which : Event -> bool) (tr : list Event) : nat :=
  length (filter which tr).

(** A decoded body with something in it.  Empty is taken as widely as
    the word allows: [null], [undefined], the empty string, the empty
    array and the object without properties.  A boolean and a number are
    never empty. *)
Definition non_empty (v : JsValue) : bool :=
  match v with
  | JUndefined | JNull => false
  | JString s => negb (String.eqb s "")
  | JArray items => match items with [] => false | _ => true end
  | JObject props => match props with [] => false | _ => true end
  | JBool _ | JNumber _ | JFormData _ | JBlob _ _ => true
  end.

(** The failures with which the platform itself rejects a cancelled
    request: [controller.abort()] without a reason gives a DOMException
    named "AbortError", a signal made by [AbortSignal.timeout] gives one
    named "TimeoutError".  (A caller that aborts with a reason of its own
    makes [fetch] reject with that very value, which can be anything.) *)
Definition platform_cancellation (t : Thrown) : bool :=
  match t with
  | ThrownError e =>
      match err_class e with
      | DOMException =>
          (String.eqb (err_name e) "AbortError"
           || String.eqb (err_name e) "TimeoutError")%bool
      | _ => false
      end
  | ThrownValue _ => false
  end.

(** ** Sample data *)

(** An excerpt of the table of http-status-codes. *)
Definition sampleReasonPhrases (statusCode : N) : option string :=
  match statusCode with
  | 200 => Some "OK"
  | 400 => Some "Bad Request"
  | 401 => Some "Unauthorized"
  | 403 => Some "Forbidden"
  | 404 => Some "Not Found"
  | 500 => Some "Internal Server Error"
  | 503 => Some "Service Unavailable"
  | _ => None
  end%N.

(** A response whose body readers all end in [outcome]. *)
Definition sampleResponse (ok : bool) (status : N) (contentType : option string)
    (outcome : Completion JsValue) : Response.t :=
  {| Response.ok := ok;
     Response.status := status;
     Response.content_type := contentType;
     Response.text := outcome;
     Response.formData := outcome;
     Response.json := outcome;
     Response.blob := outcome |}.

(** A runtime whose transport ends every request in [outcome]. *)
Definition sampleRuntime (outcome : Completion Response.t) : Runtime :=
  {| fetch := fun _ _ => outcome;
     statusCodeToReasonPhrase := sampleReasonPhrases;
     lookup_stack := Some "Error: Status code does not exist" |}.

Definition sampleOptions (errorSchema successSchema : option ZodSchema)
    : FetchEitherOptions :=
  {| requestInfo := "http://example.com/resource";
     requestInit := Undefined;
     errorPayloadSchema := errorSchema;
     successPayloadSchema := successSchema |}.

Fixpoint lookup_prop (k : string) (props : list (string * JsValue))
    : option JsValue :=
  match props with
  | [] => None
  | (k', v) :: rest => if String.eqb k k' then Some v else lookup_prop k rest
  end.

(** A schema in the manner of [z.object({ k: z.string() })]: an object
    whose property [k] is a string is accepted and stripped to that
    property; anything else is rejected with one issue. *)
Definition objectWithString (k : string) : ZodSchema :=
  {| safeParse := fun v =>
       match v with
       | JObject props =>
           match lookup_prop k props with
           | Some (JString s) =>
               Normal (SafeParseSuccess (JObject [(k, JString s)]))
           | Some _ =>
               Normal (SafeParseError
                 {| zod_stack := Some "ZodError";
                    issues := [ {| path := [Key k];
                                   issue_message := "Expected string" |} ] |})
           | None =>
               Normal (SafeParseError
                 {| zod_stack := Some "ZodError";
                    issues := [ {| path := [Key k];
                                   issue_message := "Required" |} ] |})
           end
       | _ =>
           Normal (SafeParseError
             {| zod_stack := Some "ZodError";
                issues := [ {| path := [];
                               issue_message := "Expected object" |} ] |})
       end |}.

(** A schema in the manner of
    [z.string().nullable().transform((s) => s ?? 'none')]. *)
Definition stringOrNone : ZodSchema :=
  {| safeParse := fun v =>
       match v with
       | JNull => Normal (SafeParseSuccess (JString "none"))
       | JString s => Normal (SafeParseSuccess (JString s))
       | _ =>
           Normal (SafeParseError
             {| zod_stack := Some "ZodError";
                issues := [ {| path := [];
                               issue_message := "Expected string" |} ] |})
       end |}.

(** A schema whose refinement throws. *)
Definition throwingSchema : ZodSchema :=
  {| safeParse := fun _ =>
       Throw (ThrownError {| err_class := OtherError;
                             err_name := "Error";
                             err_message := "refinement failed";
                             err_stack := None |}) |}.

Definition serverErrorBody : JsValue :=
  JObject [("error", JString "Server error")].

Definition userBody : JsValue :=
  JObject [("name", JString "value"); ("email", JString "my-email@gmail.com")].

(** The endpoints of the test suite, and some more. *)
Definition jsonEndpoint : Response.t :=
  sampleResponse true 200 (Some "application/json") (Normal userBody).

Definition errorEndpoint : Response.t :=
  sampleResponse false 500 (Some "application/json") (Normal serverErrorBody).

Definition unexpectedToken : JsError :=
  {| err_class := SyntaxError;
     err_name := "SyntaxError";
     err_message := "Unexpected token N in JSON at position 10";
     err_stack := Some "SyntaxError: Unexpected token N in JSON" |}.

Definition malformedJsonEndpoint : Response.t :=
  sampleResponse true 200 (Some "application/json")
    (Throw (ThrownError unexpectedToken)).

Definition failedToFetch : JsError :=
  {| err_class := TypeError;
     err_name := "TypeError";
     err_message := "Failed to fetch";
     err_stack := Some "TypeError: Failed to fetch" |}.

Definition aborted : JsError :=
  {| err_class := DOMException;
     err_name := "AbortError";
     err_message := "The operation was aborted.";
     err_stack := None |}.

Definition stringTooLong : JsError :=
  {| err_class := OtherError;
     err_name := "RangeError";
     err_message := "Invalid string length";
     err_stack := Some "RangeError: Invalid string length" |}.

(** A JSON endpoint whose body is [null]. *)
Definition nullJsonEndpoint : Response.t :=
  sampleResponse true 200 (Some "application/json") (Normal JNull).

(** Statuses without an entry in the table: nginx's 499 and
    Cloudflare's 520. *)
Definition clientClosedEndpoint : Response.t :=
  sampleResponse false 499 (Some "application/json") (Normal serverErrorBody).


Definition notFoundTextEndpoint : Response.t :=
  sampleResponse false 404 (Some "text/plain") (Normal (JString "no such page")).

Definition invalidUserEndpoint : Response.t :=
  sampleResponse true 200 (Some "application/json")
    (Normal (JObject [("name", JNumber (S754_finite false 7 0))])).

(** The text endpoint of the test suite, and one with an empty body. *)
Definition textEndpoint : Response.t :=
  sampleResponse true 200 (Some "text/plain") (Normal (JString "Some text data")).

Definition emptyTextEndpoint : Response.t :=
  sampleResponse true 200 (Some "text/plain") (Normal (JString "")).

(** A response without a Content-Type header. *)
Definition untypedEndpoint : Response.t :=
  sampleResponse true 200 None (Normal (JString "Some text data")).

Definition notAFunction : JsError :=
  {| err_class := TypeError;
     err_name := "TypeError";
     err_message := "check is not a function";
     err_stack := Some "TypeError: check is not a function" |}.

(** A schema whose refinement is broken and throws a TypeError. *)
Definition brokenSchema : ZodSchema :=
  {| safeParse := fun _ => Throw (ThrownError notAFunction) |}.

(** JSON endpoints whose bodies are [false] and [0]. *)
Definition falseJsonEndpoint : Response.t :=
  sampleResponse true 200 (Some "application/json") (Normal (JBool false)).

Definition zeroJsonEndpoint : Response.t :=
  sampleResponse true 200 (Some "application/json")
    (Normal (JNumber (S754_zero false))).

(** What [fetch] rejects with when its signal comes from
    [AbortSignal.timeout]. *)
Definition timedOut : JsError :=
  {| err_class := DOMException;
     err_name := "TimeoutError";
     err_message := "The operation was aborted due to timeout";
     err_stack := None |}.

(** The index of the first element that is not a string. *)
Fixpoint first_non_string (items : list JsValue) (i : N) : option N :=
  match items with
  | [] => None
  | JString _ :: rest => first_non_string rest (N.succ i)
  | _ :: _ => Some i
  end.

(** A schema in the manner of [z.object({ k: z.array(z.string()) })],
    reporting the first element that is not a string. *)
Definition objectWithStrings (k : string) : ZodSchema :=
  {| safeParse := fun v =>
       match v with
       | JObject props =>
           match lookup_prop k props with
           | Some (JArray items) =>
               match first_non_string items 0 with
               | None => Normal (SafeParseSuccess (JObject [(k, JArray items)]))
               | Some i =>
                   Normal (SafeParseError
                     {| zod_stack := Some "ZodError";
                        issues := [ {| path := [Key k; Index i];
                                       issue_message := "Expected string" |} ] |})
               end
           | Some _ =>
               Normal (SafeParseError
                 {| zod_stack := Some "ZodError";
                    issues := [ {| path := [Key k];
                                   issue_message := "Expected array" |} ] |})
           | None =>
               Normal (SafeParseError
                 {| zod_stack := Some "ZodError";
                    issues := [ {| path := [Key k];
                                   issue_message := "Required" |} ] |})
           end
       | _ =>
           Normal (SafeParseError
             {| zod_stack := Some "ZodError";
                issues := [ {| path := [];
                               issue_message := "Expected object" |} ] |})
       end |}.

Definition taggedBody : JsValue :=
  JObject [("tags", JArray [JString "a"; JNumber (S754_finite false 7 0)])].

Definition taggedEndpoint : Response.t :=
  sampleResponse true 200 (Some "application/json") (Normal taggedBody).

(** * Properties *)

(** ** The monad *)

Lemma bind_ret_l {A B} (a : A) (k : A -> M B) : bind (ret a) k = k a.
Proof. unfold bind, ret. now destruct (k a). Qed.

Lemma bind_ret_r {A} (m : M A) : bind m ret = m.
Proof.
  destruct m as [[a | t] tr]; cbn; [| reflexivity]. now rewrite app_nil_r.
Qed.

Lemma bind_assoc {A B C} (m : M A) (k : A -> M B) (h : B -> M C) :
  bind (bind m k) h = bind m (fun a => bind (k a) h).
Proof.
  destruct m as [[a | t] tr]; cbn; [| reflexivity].
  destruct (k a) as [[b | t] tr1]; cbn; [| reflexivity].
  destruct (h b) as [c tr2]. now rewrite app_assoc.
Qed.

(** What is thrown inside [try] never leaves it when the handler
    returns. *)
Lemma try_catch_returns {A} (m : M A) (f : Thrown -> A) :
  exists a, result (try_catch m (fun t => ret (f t))) = Normal a.
Proof.
  destruct m as [[a | t] tr]; cbn; eauto.
Qed.

(** ** Regular expressions *)

(** A sequence of literal characters matches at the start of a string
    when it is a prefix of the string. *)
Lemma match_here_literal (p s : string) :
  match_here (literal p) s = true <-> exists rest, s = (p ++ rest)%string.
Proof.
  revert s. induction p as [| c p IH]; intros s.
  - cbn. split; [intros _; now exists s | reflexivity].
  - change (literal (String c p)) with (RChar c :: literal p).
    cbn [match_here]. destruct s as [| d s].
    + split; [discriminate | intros [rest H]; discriminate H].
    + rewrite andb_true_iff, Ascii.eqb_eq, IH. split.
      * intros [-> [rest ->]]. now exists rest.
      * intros [rest H]. cbn in H. injection H as -> ->. eauto.
Qed.

(** [test] finds a match starting at any position. *)
Lemma test_somewhere (re : RegExp) (s : string) :
  test re s = true <->
  exists before rest, s = (before ++ rest)%string /\ match_here re rest = true.
Proof.
  induction s as [| c s IH]; cbn [test]; rewrite orb_true_iff.
  - split.
    + intros [H | H]; [| discriminate H]. now exists "", "".
    + intros [before [rest [H Hm]]]. left.
      destruct before; [| discriminate H]. cbn in H. now subst rest.
  - rewrite IH. split.
    + intros [H | [before [rest [-> Hm]]]].
      * now exists "", (String c s).
      * now exists (String c before), rest.
    + intros [before [rest [H Hm]]]. destruct before as [| d before].
      * cbn in H. subst rest. now left.
      * cbn in H. injection H as -> ->. right. eauto.
Qed.

(** A pattern of literal characters is searched as a substring, with the
    case of the letters as written. *)
Lemma test_literal (p s : string) :
  test (literal p) s = true <-> exists before after, s = (before ++ p ++ after)%string.
Proof.
  rewrite test_somewhere. split.
  - intros [before [rest [-> Hm]]]. apply match_here_literal in Hm.
    destruct Hm as [after ->]. eauto.
  - intros [before [after ->]]. exists before, (p ++ after)%string. split; [easy |].
    apply match_here_literal. eauto.
Qed.

(** A final [.*] accepts whatever follows, so it does not change whether
    the expression matches. *)
Lemma match_here_final_dotstar (re : RegExp) (s : string) :
  match_here (re ++ [RDotStar]) s = match_here re s.
Proof.
  revert s. induction re as [| a re IH]; intros s.
  - cbn. now destruct s.
  - destruct a as [c |].
    + cbn [app match_here]. destruct s as [| d s]; [reflexivity |].
      now rewrite IH.
    + cbn [app match_here]. induction s as [| d s IHs].
      * now rewrite IH.
      * rewrite IH. now rewrite IHs.
Qed.

Lemma test_image_any (s : string) :
  test image_any s = test (literal "image/") s.
Proof.
  unfold image_any. induction s as [| c s IH]; cbn [test];
    rewrite match_here_final_dotstar; [reflexivity |].
  now rewrite IH.
Qed.

(** ** [extractPayload] *)

(** The chain of [readBody] is exhaustive: exactly the reader named by
    the parser is called. *)
Lemma readBody_reader response p :
  readBody response p = call (EvBodyRead p) (reader response p).
Proof. now destruct p. Qed.

Lemma extractPayload_success response p v :
  reader response p = Normal v ->
  extractPayload response p = (Normal (None, v), [EvBodyRead p]).
Proof.
  intros H. unfold extractPayload. rewrite readBody_reader, H. reflexivity.
Qed.

Lemma extractPayload_failure response p t :
  reader response p = Throw t ->
  exists e,
    extractPayload response p = (Normal (Some e, JNull), [EvBodyRead p]).
Proof.
  intros H. unfold extractPayload. rewrite readBody_reader, H.
  destruct t as [e | v]; cbn.
  - destruct (err_class e); cbn; eauto.
  - eauto.
Qed.

(** [extractPayload] returns, with one of the two shapes of a tuple, after
    one read of the body. *)
Lemma extractPayload_shape response p :
  (exists v, extractPayload response p = (Normal (None, v), [EvBodyRead p])) \/
  (exists e, extractPayload response p = (Normal (Some e, JNull), [EvBodyRead p])).
Proof.
  destruct (reader response p) as [v | t] eqn:H.
  - left. exists v. now apply extractPayload_success.
  - right. now apply (extractPayload_failure _ _ t).
Qed.

(** ** [getResponsePayload] *)

Lemma ts_match_find {I O R : Type} (rules : list R) (pat : R -> I -> bool)
    (run : R -> O) (otherwise : I -> O) (x : I) :
  ts_match (map (fun r => (pat r, fun _ : I => run r)) rules) otherwise x =
  match find (fun r => pat r x) rules with
  | Some r => run r
  | None => otherwise x
  end.
Proof.
  induction rules as [| r rules IH]; cbn; [reflexivity |].
  destruct (pat r x); [reflexivity | exact IH].
Qed.

(** The final test [if (error)] of [getResponsePayload] changes nothing:
    the tuple of the chosen branch is returned as it is. *)
Lemma getResponsePayload_first_rule response :
  getResponsePayload response =
  match first_rule (Response.content_type response) with
  | Some rule => extractPayload response (snd rule)
  | None =>
      (Normal (Some (unsupportedContentType (Response.content_type response)),
               JNull), [])
  end.
Proof.
  unfold getResponsePayload, first_rule.
  rewrite (ts_match_find contentTypeRules
             (fun rule => matchRegex (fst rule))
             (fun rule => extractPayload response (snd rule))).
  destruct (find _ contentTypeRules) as [rule |].
  - destruct (extractPayload_shape response (snd rule)) as [[v H] | [e H]];
      rewrite H; reflexivity.
  - reflexivity.
Qed.

Lemma getResponsePayload_shape response :
  (exists v tr, getResponsePayload response = (Normal (None, v), tr)) \/
  (exists e tr, getResponsePayload response = (Normal (Some e, JNull), tr)).
Proof.
  rewrite getResponsePayload_first_rule.
  destruct (first_rule _) as [rule |].
  - destruct (extractPayload_shape response (snd rule)) as [[v H] | [e H]];
      rewrite H; eauto.
  - eauto.
Qed.

(** The patterns are searched for anywhere in the content type, with the
    case of the letters as written. *)
Example route_json_with_charset :
  first_rule (Some "application/json; charset=utf-8")
  = Some (literal "application/json", json).
Proof. reflexivity. Qed.

Example route_json_before_text :
  first_rule (Some "text/plain, application/json")
  = Some (literal "application/json", json).
Proof. reflexivity. Qed.

Example route_image :
  option_map snd (first_rule (Some "image/svg+xml")) = Some blob.
Proof. reflexivity. Qed.

Example route_upper_case : first_rule (Some "Application/JSON") = None.
Proof. reflexivity. Qed.

Example route_missing_header : first_rule None = None.
Proof. reflexivity. Qed.

(** C7: the content-type router picks the parser of the first rule, in
    the order json, text (text/plain, text/html, application/xml),
    formData (multipart/form-data, application/x-www-form-urlencoded),
    blob (image/...), whose pattern occurs in the declared content type,
    and reads the body once with that parser; when no rule matches it
    returns a payload error that keeps the declared content type, names no
    parser, and reads no body. *)
Theorem getResponsePayload_routes_by_first_match (response : Response.t) :
  (matchRegex (literal "application/json") (Response.content_type response) = true ->
     getResponsePayload response = extractPayload response json)
  /\ (matchRegex (literal "application/json") (Response.content_type response) = false ->
      matchRegex (literal "text/plain") (Response.content_type response) = true
      \/ matchRegex (literal "text/html") (Response.content_type response) = true
      \/ matchRegex (literal "application/xml") (Response.content_type response) = true ->
      getResponsePayload response = extractPayload response text)
  /\ (matchRegex (literal "application/json") (Response.content_type response) = false ->
      matchRegex (literal "text/plain") (Response.content_type response) = false ->
      matchRegex (literal "text/html") (Response.content_type response) = false ->
      matchRegex (literal "application/xml") (Response.content_type response) = false ->
      matchRegex (literal "multipart/form-data") (Response.content_type response) = true
      \/ matchRegex (literal "application/x-www-form-urlencoded")
           (Response.content_type response) = true ->
      getResponsePayload response = extractPayload response formData)
  /\ (matchRegex (literal "application/json") (Response.content_type response) = false ->
      matchRegex (literal "text/plain") (Response.content_type response) = false ->
      matchRegex (literal "text/html") (Response.content_type response) = false ->
      matchRegex (literal "application/xml") (Response.content_type response) = false ->
      matchRegex (literal "multipart/form-data") (Response.content_type response) = false ->
      matchRegex (literal "application/x-www-form-urlencoded")
        (Response.content_type response) = false ->
      matchRegex image_any (Response.content_type response) = true ->
      getResponsePayload response = extractPayload response blob)
  /\ (forallb (fun rule => negb (matchRegex (fst rule) (Response.content_type response)))
        contentTypeRules = true ->
      getResponsePayload response =
        (Normal (Some (RPPayload
           {| payload_base :=
                {| message := "unsupported content type: "
                     ++ string_of_nullable (Response.content_type response);
                   stack := None |};
              responseContentType := Response.content_type response;
              responseParser := None |}), JNull), []))
  /\ ((exists p,
         option_map snd (first_rule (Response.content_type response)) = Some p
         /\ getResponsePayload response = extractPayload response p
         /\ trace (getResponsePayload response) = [EvBodyRead p])
      \/ (first_rule (Response.content_type response) = None
          /\ exists e,
               getResponsePayload response = (Normal (Some (RPPayload e), JNull), [])
               /\ responseContentType e = Response.content_type response
               /\ responseParser e = None)).
Proof.
  rewrite getResponsePayload_first_rule.
  unfold first_rule, contentTypeRules.
  cbn [find forallb fst snd].
  set (ct := Response.content_type response).
  destruct (matchRegex (literal "application/json") ct) eqn:Hjson;
  destruct (matchRegex (literal "text/plain") ct) eqn:Hplain;
  destruct (matchRegex (literal "text/html") ct) eqn:Hhtml;
  destruct (matchRegex (literal "application/xml") ct) eqn:Hxml;
  destruct (matchRegex (literal "multipart/form-data") ct) eqn:Hmulti;
  destruct (matchRegex (literal "application/x-www-form-urlencoded") ct) eqn:Hform;
  destruct (matchRegex image_any ct) eqn:Himage;
  cbn [negb andb option_map snd];
  (repeat split;
   try solve [ reflexivity | discriminate | intros; discriminate
             | intros; intuition discriminate ]);
  try solve
    [ left; eexists; split; [reflexivity |]; split; [reflexivity |];
      match goal with
      | |- trace (extractPayload ?r ?p) = _ =>
          destruct (extractPayload_shape r p) as [[? H] | [? H]];
          rewrite H; reflexivity
      end
    | right; split; [reflexivity |]; eexists; repeat split ].
Qed.

(** C8: when reading the body throws, [extractPayload] returns a payload
    error with the declared content type, the parser that was tried and
    the message "Failed to parse response" if the failure is a TypeError
    or a SyntaxError, and an unknown error with the message and the stack
    of the failure if it is any other Error. *)
Theorem extractPayload_classifies_failure
    (response : Response.t) (responseType : ResponseParser) (t : Thrown) :
  result (readBody response responseType) = Throw t ->
  (instanceof t TypeError = true \/ instanceof t SyntaxError = true ->
     exists e, t = ThrownError e /\
       extractPayload response responseType =
         (Normal (Some (RPPayload
            {| payload_base := {| message := "Failed to parse response";
                                  stack := err_stack e |};
               responseContentType := Response.content_type response;
               responseParser := Some responseType |}), JNull),
          [EvBodyRead responseType]))
  /\ (instanceof t TypeError = false -> instanceof t SyntaxError = false ->
      instanceof_Error t = true ->
      exists e, t = ThrownError e /\
        extractPayload response responseType =
          (Normal (Some (RPUnknown
             {| unknown_base := {| message := err_message e;
                                   stack := err_stack e |} |}), JNull),
           [EvBodyRead responseType])).
Proof.
  rewrite readBody_reader. cbn [result call fst]. intros Hread.
  unfold extractPayload. rewrite readBody_reader, Hread.
  cbn [bind call try_catch].
  destruct t as [e | v].
  - split.
    + intros Hcls. exists e. split; [reflexivity |].
      assert (H : (instanceof (ThrownError e) TypeError
                   || instanceof (ThrownError e) SyntaxError)%bool = true)
        by (apply orb_true_iff; exact Hcls).
      rewrite H. reflexivity.
    + intros Hty Hsy _. exists e. split; [reflexivity |].
      rewrite Hty, Hsy. reflexivity.
  - split.
    + intros [H | H]; discriminate H.
    + intros _ _ H. discriminate H.
Qed.

Lemma extractPayload_classifies_failure_witness :
  extractPayload malformedJsonEndpoint json =
    (Normal (Some (RPPayload
       {| payload_base :=
            {| message := "Failed to parse response";
               stack := Some "SyntaxError: Unexpected token N in JSON" |};
          responseContentType := Some "application/json";
          responseParser := Some json |}), JNull),
     [EvBodyRead json])
  /\ extractPayload
       (sampleResponse true 200 (Some "text/plain")
          (Throw (ThrownError stringTooLong))) text =
     (Normal (Some (RPUnknown
        {| unknown_base :=
             {| message := "Invalid string length";
                stack := Some "RangeError: Invalid string length" |} |}), JNull),
      [EvBodyRead text]).
Proof.
  split.
  - destruct (extractPayload_classifies_failure malformedJsonEndpoint json
                (ThrownError unexpectedToken) eq_refl) as [Hparse _].
    destruct (Hparse (or_intror eq_refl)) as [e [He Hrun]].
    injection He as <-. exact Hrun.
  - destruct (extractPayload_classifies_failure
                (sampleResponse true 200 (Some "text/plain")
                   (Throw (ThrownError stringTooLong))) text
                (ThrownError stringTooLong) eq_refl) as [_ Hother].
    destruct (Hother eq_refl eq_refl eq_refl) as [e [He Hrun]].
    injection He as <-. exact Hrun.
Defined.

(** A failure that is no error object at all is reported with the fixed
    message of line 59. *)
Lemma extractPayload_thrown_value response responseType v :
  reader response responseType = Throw (ThrownValue v) ->
  extractPayload response responseType =
    (Normal (Some (RPUnknown
       {| unknown_base := {| message := "unkown error"; stack := None |} |}),
       JNull),
     [EvBodyRead responseType]).
Proof.
  intros H. unfold extractPayload. now rewrite readBody_reader, H.
Qed.

(** ** [fetchEither] *)

Lemma classifyFailure_error t :
  exists e, classifyFailure t = (Some e, JNull)
            /\ In (type_of e) variant_tags.
Proof.
  destruct t as [e | v]; [| cbn; eauto 10].
  unfold classifyFailure.
  destruct (err_class e) eqn:Hc; cbn; rewrite Hc; cbn.
  - destruct (String.eqb (err_name e) "AbortError"); cbn; eauto 10.
  - eauto 10.
  - eauto 10.
  - eauto 10.
Qed.

Section FetchEither.

Variable rt : Runtime.
Variable options : FetchEitherOptions.

(** A failure of the transport goes to the [catch] block at once. *)
Lemma fetchEither_transport_failure t :
  transportOutcome rt options = Throw t ->
  fetchEither rt options = (Normal (classifyFailure t), [fetchEvent options]).
Proof.
  unfold transportOutcome, fetchEither, fetchEvent. intros ->. reflexivity.
Qed.

(** A status without a reason phrase goes to the [catch] block after the
    lookup. *)
Lemma fetchEither_no_reason_phrase response :
  transportOutcome rt options = Normal response ->
  Response.ok response = false ->
  statusCodeToReasonPhrase rt (Response.status response) = None ->
  fetchEither rt options =
    (Normal (Some (Unknown
       {| unknown_base :=
            {| message := "Status code does not exist: "
                            ++ string_of_N (Response.status response);
               stack := lookup_stack rt |} |}), JNull),
     [fetchEvent options; EvGetReasonPhrase (Response.status response)]).
Proof.
  unfold transportOutcome, fetchEither, fetchEvent, getReasonPhrase.
  intros Hfetch Hok Hphrase. rewrite Hfetch. cbn [bind call].
  rewrite Hok. cbn [negb]. rewrite Hphrase. reflexivity.
Qed.

(** Every variant carries one of the seven tags. *)
Lemma type_of_in_variant_tags (e : FetchEitherError) :
  In (type_of e) variant_tags.
Proof.
  destruct e as [h | v | u | p | f]; cbn; auto 10.
  destruct (fetch_type f); cbn; auto 10.
Qed.

(** The shape of every run: an error with a [null] value, or no error
    and the payload of an ok response, which is the decoded body or what
    the success schema made of a truthy body. *)
Lemma fetchEither_outcome :
  (exists e tr, fetchEither rt options = (Normal (Some e, JNull), tr))
  \/ (exists v tr response body tr0,
        fetchEither rt options = (Normal (None, v), tr)
        /\ transportOutcome rt options = Normal response
        /\ Response.ok response = true
        /\ getResponsePayload response = (Normal (None, body), tr0)
        /\ ((v = body
             /\ (truthy body = false \/ successPayloadSchema options = None))
            \/ (exists schema,
                  truthy body = true
                  /\ successPayloadSchema options = Some schema
                  /\ safeParse schema body = Normal (SafeParseSuccess v)))).
Proof.
  destruct (transportOutcome rt options) as [response | t] eqn:Hfetch.
  2: { left. rewrite (fetchEither_transport_failure t Hfetch).
       destruct (classifyFailure_error t) as [e [-> _]]. eauto. }
  destruct (Response.ok response) eqn:Hok.
  - (* the success path *)
    unfold fetchEither. unfold transportOutcome in Hfetch.
    rewrite Hfetch. cbn [bind call]. rewrite Hok. cbn [negb].
    destruct (getResponsePayload_shape response)
      as [[body [tr0 Hbody]] | [e [tr0 Herr]]].
    + rewrite Hbody. cbn [bind].
      destruct (truthy body) eqn:Htruthy.
      * destruct (successPayloadSchema options) as [schema |] eqn:Hschema.
        -- cbn [bind call].
           destruct (safeParse schema body) as [[data | zodError] | t] eqn:Hparse.
           ++ right. exists data. do 2 eexists. exists body, tr0.
              split; [reflexivity |]. repeat (split; [assumption || reflexivity |]).
              right. exists schema. auto.
           ++ left. cbn. eauto.
           ++ left. cbn. destruct (classifyFailure_error t) as [e [-> _]].
              cbn. eauto.
        -- right. exists body. do 2 eexists. exists body, tr0.
           split; [reflexivity |]. repeat (split; [assumption || reflexivity |]).
           left. auto.
      * right. exists body. do 2 eexists. exists body, tr0.
        split; [reflexivity |]. repeat (split; [assumption || reflexivity |]).
        left. auto.
    + left. rewrite Herr. cbn. eauto.
  - (* the error path *)
    left.
    destruct (statusCodeToReasonPhrase rt (Response.status response))
      as [phrase |] eqn:Hphrase.
    2: { rewrite (fetchEither_no_reason_phrase response Hfetch Hok Hphrase).
         eauto. }
    unfold fetchEither, getReasonPhrase. unfold transportOutcome in Hfetch.
    rewrite Hfetch. cbn [bind call]. rewrite Hok. cbn [negb].
    rewrite Hphrase.
    destruct (getResponsePayload_shape response)
      as [[payload [tr0 Hbody]] | [e [tr0 Herr]]].
    + rewrite Hbody. cbn [bind].
      destruct (errorPayloadSchema options) as [schema |].
      * cbn [bind call].
        destruct (safeParse schema payload) as [[data | zodError] | t].
        -- cbn. eauto.
        -- cbn. eauto.
        -- cbn. destruct (classifyFailure_error t) as [e [-> _]]. cbn. eauto.
      * cbn. eauto.
    + rewrite Herr. cbn. eauto.
Qed.

(** C1 (amended): no run returns an error together with a value: a
    non-null error slot always comes with a null value slot.  When the
    error slot is null, the response was ok and the value slot holds the
    decoded body, or the success schema's output for a truthy body; that
    value may itself be null, and then both slots are null. *)
Theorem fetchEither_slots :
  exists e v,
    result (fetchEither rt options) = Normal (e, v)
    /\ (e <> None -> v = JNull)
    /\ (e = None ->
        exists response body tr,
          transportOutcome rt options = Normal response
          /\ Response.ok response = true
          /\ getResponsePayload response = (Normal (None, body), tr)
          /\ ((v = body
               /\ (truthy body = false \/ successPayloadSchema options = None))
              \/ (exists schema,
                    truthy body = true
                    /\ successPayloadSchema options = Some schema
                    /\ safeParse schema body = Normal (SafeParseSuccess v)))).
Proof.
  destruct fetchEither_outcome
    as [[e [tr Hrun]] | [v [tr [response [body [tr0 [Hrun Hrest]]]]]]].
  - exists (Some e), JNull. rewrite Hrun. repeat split.
    intros H. discriminate H.
  - exists None, v. rewrite Hrun. split; [reflexivity |]. split.
    + intros H. now contradiction H.
    + intros _. exists response, body, tr0. exact Hrest.
Qed.

(** C2: every run of [fetchEither] returns a tuple, whatever the
    transport, the lookup, the body readers and the schemas do: nothing is
    thrown past it.  An error in the tuple carries one of the tags
    unknown, http, payload, response-validation, abort, type, syntax. *)
Theorem fetchEither_total :
  exists e v,
    result (fetchEither rt options) = Normal (e, v)
    /\ match e with
       | Some err => In (type_of err) variant_tags
       | None => True
       end.
Proof.
  destruct fetchEither_outcome
    as [[e [tr Hrun]] | [v [tr [response [body [tr0 [Hrun _]]]]]]].
  - exists (Some e), JNull. rewrite Hrun. split; [reflexivity |].
    apply type_of_in_variant_tags.
  - exists None, v. rewrite Hrun. split; [reflexivity | exact I].
Qed.



(** C5 (amended): for an ok response whose body is extracted, with a
    success schema that accepts the body: if the body is truthy the value
    is the schema's output; if the body is falsy (null, false, 0, NaN,
    the empty string) the schema is not run and the value is the body as
    decoded. *)
Theorem success_schema_runs_on_truthy_body
    (response : Response.t) (body : JsValue) (tr : list Event)
    (schema : ZodSchema) (data : JsValue) :
  transportOutcome rt options = Normal response ->
  Response.ok response = true ->
  getResponsePayload response = (Normal (None, body), tr) ->
  successPayloadSchema options = Some schema ->
  safeParse schema body = Normal (SafeParseSuccess data) ->
  (truthy body = true ->
     fetchEither rt options =
       (Normal (None, data), fetchEvent options :: tr ++ [EvSafeParse body]))
  /\ (truthy body = false ->
      fetchEither rt options = (Normal (None, body), fetchEvent options :: tr)).
Proof.
  intros Hfetch Hok Hbody Hschema Hparse. unfold transportOutcome in Hfetch.
  split; intros Htruthy;
    unfold fetchEither, fetchEvent;
    rewrite Hfetch; cbn [bind call]; rewrite Hok; cbn [negb];
    rewrite Hbody; cbn [bind]; rewrite Htruthy.
  - rewrite Hschema. cbn [bind call]. rewrite Hparse. cbn.
    now rewrite ?app_nil_r.
  - cbn. now rewrite ?app_nil_r.
Qed.

(** C6 (amended): for an ok response whose body is extracted, with a
    success schema that rejects the body: if the body is truthy, the
    error is the validation error, whose input is the body as decoded and
    whose errors are the issues of the schema, one entry for each in the
    same order, with the path of the issue joined by dots and the message
    of the issue; if the body is falsy (null, undefined, false, 0, -0,
    NaN, the empty string) the schema is not run and the tuple is
    [[null, body]]. *)
Theorem success_schema_rejection
    (response : Response.t) (body : JsValue) (tr : list Event)
    (schema : ZodSchema) (zodError : ZodError) :
  transportOutcome rt options = Normal response ->
  Response.ok response = true ->
  getResponsePayload response = (Normal (None, body), tr) ->
  successPayloadSchema options = Some schema ->
  safeParse schema body = Normal (SafeParseError zodError) ->
  (truthy body = true ->
   exists v,
     fetchEither rt options =
       (Normal (Some (ResponseValidation v), JNull),
        fetchEvent options :: tr ++ [EvSafeParse body])
     /\ validation_base v
        = {| message := "Response schema failed to parse the body";
             stack := zod_stack zodError |}
     /\ input v = body
     /\ length (errors v) = length (issues zodError)
     /\ (forall i issue,
           nth_error (issues zodError) i = Some issue ->
           nth_error (errors v) i =
             Some {| entry_path :=
                       String.concat "."
                         (map (fun seg =>
                                 match seg with
                                 | Key k => k
                                 | Index n =>
                                     NilEmpty.string_of_uint (N.to_uint n)
                                 end) (path issue));
                     entry_message := issue_message issue |}))
  /\ (truthy body = false ->
      fetchEither rt options = (Normal (None, body), fetchEvent options :: tr)).
Proof.
  intros Hfetch Hok Hbody Hschema Hparse.
  unfold transportOutcome in Hfetch. split; intros Htruthy.
  - exists (validationError zodError body).
    split; [| split; [| split; [| split]]].
    + unfold fetchEither, fetchEvent.
      rewrite Hfetch. cbn [bind call]. rewrite Hok. cbn [negb].
      rewrite Hbody. cbn [bind]. rewrite Htruthy, Hschema. cbn [bind call].
      rewrite Hparse. cbn. now rewrite ?app_nil_r.
    + reflexivity.
    + reflexivity.
    + cbn. apply length_map.
    + intros i issue Hnth. cbn [validationError errors].
      rewrite nth_error_map, Hnth. reflexivity.
  - unfold fetchEither, fetchEvent.
    rewrite Hfetch. cbn [bind call]. rewrite Hok. cbn [negb].
    rewrite Hbody. cbn [bind]. rewrite Htruthy. cbn.
    now rewrite ?app_nil_r.
Qed.

(** C9 (amended): when the transport call itself throws, nothing else is
    called and the failure is classified: a DOMException named AbortError
    (the default reason of an aborted request) gives the fetch error
    abort, a TypeError gives type, a SyntaxError gives syntax, each with
    the message and stack of the failure; any other Error, a DOMException
    of another name such as TimeoutError included, gives an unknown error
    with the message of the failure; a thrown value that is no Error gives
    an unknown error with the message "unknown error". *)
Theorem transport_failure_classified (t : Thrown) :
  transportOutcome rt options = Throw t ->
  (forall e, t = ThrownError e ->
     err_class e = DOMException -> err_name e = "AbortError" ->
     fetchEither rt options =
       (Normal (Some (Fetch {| fetch_base := base_of_error e;
                               fetch_type := FetchAbort |}), JNull),
        [fetchEvent options]))
  /\ (forall e, t = ThrownError e ->
      err_class e = TypeError ->
      fetchEither rt options =
        (Normal (Some (Fetch {| fetch_base := base_of_error e;
                                fetch_type := FetchType |}), JNull),
         [fetchEvent options]))
  /\ (forall e, t = ThrownError e ->
      err_class e = SyntaxError ->
      fetchEither rt options =
        (Normal (Some (Fetch {| fetch_base := base_of_error e;
                                fetch_type := FetchSyntax |}), JNull),
         [fetchEvent options]))
  /\ (forall e, t = ThrownError e ->
      err_class e = OtherError
      \/ (err_class e = DOMException /\ err_name e <> "AbortError") ->
      fetchEither rt options =
        (Normal (Some (Unknown
           {| unknown_base := {| message := err_message e;
                                 stack := err_stack e |} |}), JNull),
         [fetchEvent options]))
  /\ (forall v, t = ThrownValue v ->
      fetchEither rt options =
        (Normal (Some (Unknown
           {| unknown_base := {| message := "unknown error";
                                 stack := None |} |}), JNull),
         [fetchEvent options])).
Proof.
  intros Hfetch. rewrite (fetchEither_transport_failure t Hfetch).
  repeat split.
  - intros e -> Hclass Hname. unfold classifyFailure. cbn.
    rewrite Hclass, Hname. reflexivity.
  - intros e -> Hclass. unfold classifyFailure. cbn.
    rewrite Hclass. reflexivity.
  - intros e -> Hclass. unfold classifyFailure. cbn.
    rewrite Hclass. reflexivity.
  - intros e -> [Hclass | [Hclass Hname]]; unfold classifyFailure; cbn;
      rewrite Hclass; [reflexivity |].
    apply String.eqb_neq in Hname. cbn. rewrite Hname. reflexivity.
  - intros v ->. reflexivity.
Qed.

(** C10: for a non-ok response whose status has no reason phrase, the
    lookup throws; the body is not read and no schema is run; the run
    returns an unknown error with the message of the lookup, and no http
    error. *)
Theorem status_without_reason_phrase (response : Response.t) :
  transportOutcome rt options = Normal response ->
  Response.ok response = false ->
  statusCodeToReasonPhrase rt (Response.status response) = None ->
  (exists e, result (getReasonPhrase rt (Response.status response))
             = Throw (ThrownError e))
  /\ fetchEither rt options =
       (Normal (Some (Unknown
          {| unknown_base :=
               {| message := "Status code does not exist: "
                               ++ string_of_N (Response.status response);
                  stack := lookup_stack rt |} |}), JNull),
        [fetchEvent options; EvGetReasonPhrase (Response.status response)])
  /\ (forall p, ~ In (EvBodyRead p) (trace (fetchEither rt options)))
  /\ (forall v, ~ In (EvSafeParse v) (trace (fetchEither rt options)))
  /\ (forall h, result (fetchEither rt options)
                <> Normal (Some (Http h), JNull)).
Proof.
  intros Hfetch Hok Hphrase.
  rewrite (fetchEither_no_reason_phrase response Hfetch Hok Hphrase).
  split; [| split; [reflexivity | split; [| split]]].
  - unfold getReasonPhrase. rewrite Hphrase. cbn. eauto.
  - intros p [H | [H | []]]; [| discriminate H].
    unfold fetchEvent in H. discriminate H.
  - intros v [H | [H | []]]; [| discriminate H].
    unfold fetchEvent in H. discriminate H.
  - intros h H. cbn in H. discriminate H.
Qed.

End FetchEither.

(** ** The properties at the sample endpoints *)

(** C1, as stated, fails for a JSON endpoint whose body is [null]: with no
    schema the run returns [[null, null]]. *)
Lemma fetchEither_null_body_both_slots_null :
  fetchEither (sampleRuntime (Normal nullJsonEndpoint)) (sampleOptions None None)
  = (Normal (None, JNull),
     [EvFetch "http://example.com/resource" None; EvBodyRead json])
  /\ ~ exclusive_slots (@pair (option FetchEitherError) JsValue None JNull).
Proof.
  split; [reflexivity |].
  intros [[H _] | [_ H]]; now apply H.
Qed.



(** C5, as stated, fails for a falsy body: the schema accepts the body
    [null] and normalizes it to a string, yet the value returned is the
    body. *)
Lemma fetchEither_null_body_skips_success_schema :
  Response.ok nullJsonEndpoint = true
  /\ getResponsePayload nullJsonEndpoint
     = (Normal (None, JNull), [EvBodyRead json])
  /\ safeParse stringOrNone JNull = Normal (SafeParseSuccess (JString "none"))
  /\ fetchEither (sampleRuntime (Normal nullJsonEndpoint))
       (sampleOptions None (Some stringOrNone))
     = (Normal (None, JNull),
        [EvFetch "http://example.com/resource" None; EvBodyRead json])
  /\ JNull <> JString "none".
Proof.
  repeat split; try reflexivity.
  intros H. discriminate H.
Qed.

(** C6, as stated, fails for a body that is not empty but falsy: the
    JSON bodies [false] and [0] are rejected by the schema, yet the schema
    is not run and the tuple is [[null, body]] with no validation
    error. *)
Lemma fetchEither_false_body_skips_rejecting_schema :
  non_empty (JBool false) = true
  /\ Response.ok falseJsonEndpoint = true
  /\ getResponsePayload falseJsonEndpoint
     = (Normal (None, JBool false), [EvBodyRead json])
  /\ safeParse (objectWithString "name") (JBool false)
     = Normal (SafeParseError
         {| zod_stack := Some "ZodError";
            issues := [ {| path := [];
                           issue_message := "Expected object" |} ] |})
  /\ fetchEither (sampleRuntime (Normal falseJsonEndpoint))
       (sampleOptions None (Some (objectWithString "name")))
     = (Normal (None, JBool false),
        [EvFetch "http://example.com/resource" None; EvBodyRead json])
  /\ non_empty (JNumber (S754_zero false)) = true
  /\ fetchEither (sampleRuntime (Normal zeroJsonEndpoint))
       (sampleOptions None (Some (objectWithString "name")))
     = (Normal (None, JNumber (S754_zero false)),
        [EvFetch "http://example.com/resource" None; EvBodyRead json])
  /\ (forall v,
        result (fetchEither (sampleRuntime (Normal falseJsonEndpoint))
                  (sampleOptions None (Some (objectWithString "name"))))
        <> Normal (Some (ResponseValidation v), JNull)).
Proof.
  repeat split; try reflexivity.
  intros v H. discriminate H.
Qed.

(** C9, as stated, fails for a cancellation that is not the default
    abort: a request cancelled by a timeout signal is rejected with a
    DOMException named "TimeoutError", which gives an unknown error with
    the message of the failure; a request aborted with a reason of the
    caller's own that is no Error (here a string) gives the unknown error
    with the fallback message.  Neither is a fetch error of type
    abort. *)
Lemma fetchEither_timeout_is_not_abort :
  platform_cancellation (ThrownError timedOut) = true
  /\ fetchEither (sampleRuntime (Throw (ThrownError timedOut)))
       (sampleOptions None None)
     = (Normal (Some (Unknown
          {| unknown_base :=
               {| message := "The operation was aborted due to timeout";
                  stack := None |} |}), JNull),
        [EvFetch "http://example.com/resource" None])
  /\ fetchEither (sampleRuntime (Throw (ThrownValue (JString "cancelled"))))
       (sampleOptions None None)
     = (Normal (Some (Unknown
          {| unknown_base := {| message := "unknown error";
                                stack := None |} |}), JNull),
        [EvFetch "http://example.com/resource" None])
  /\ (forall f,
        result (fetchEither (sampleRuntime (Throw (ThrownError timedOut)))
                  (sampleOptions None None))
        <> Normal (Some (Fetch f), JNull)).
Proof.
  repeat split; try reflexivity.
  intros f H. discriminate H.
Qed.



Lemma success_schema_runs_on_truthy_body_witness :
  fetchEither (sampleRuntime (Normal jsonEndpoint))
    (sampleOptions None (Some (objectWithString "name")))
  = (Normal (None, JObject [("name", JString "value")]),
     [EvFetch "http://example.com/resource" None; EvBodyRead json;
      EvSafeParse userBody])
  /\ fetchEither (sampleRuntime (Normal nullJsonEndpoint))
       (sampleOptions None (Some stringOrNone))
     = (Normal (None, JNull),
        [EvFetch "http://example.com/resource" None; EvBodyRead json]).
Proof.
  split.
  - destruct (success_schema_runs_on_truthy_body
                (sampleRuntime (Normal jsonEndpoint))
                (sampleOptions None (Some (objectWithString "name")))
                jsonEndpoint userBody [EvBodyRead json]
                (objectWithString "name") (JObject [("name", JString "value")])
                eq_refl eq_refl eq_refl eq_refl eq_refl) as [Htruthy _].
    exact (Htruthy eq_refl).
  - destruct (success_schema_runs_on_truthy_body
                (sampleRuntime (Normal nullJsonEndpoint))
                (sampleOptions None (Some stringOrNone))
                nullJsonEndpoint JNull [EvBodyRead json]
                stringOrNone (JString "none")
                eq_refl eq_refl eq_refl eq_refl eq_refl) as [_ Hfalsy].
    exact (Hfalsy eq_refl).
Defined.

Lemma success_schema_rejection_witness :
  (exists v,
     fetchEither (sampleRuntime (Normal invalidUserEndpoint))
       (sampleOptions None (Some (objectWithString "name")))
     = (Normal (Some (ResponseValidation v), JNull),
        [EvFetch "http://example.com/resource" None; EvBodyRead json;
         EvSafeParse (JObject [("name", JNumber (S754_finite false 7 0))])])
     /\ input v = JObject [("name", JNumber (S754_finite false 7 0))]
     /\ length (errors v) = 1
     /\ nth_error (errors v) 0
        = Some {| entry_path := "name"; entry_message := "Expected string" |})
  /\ (exists v,
        fetchEither (sampleRuntime (Normal taggedEndpoint))
          (sampleOptions None (Some (objectWithStrings "tags")))
        = (Normal (Some (ResponseValidation v), JNull),
           [EvFetch "http://example.com/resource" None; EvBodyRead json;
            EvSafeParse taggedBody])
        /\ input v = taggedBody
        /\ nth_error (errors v) 0
           = Some {| entry_path := "tags.1";
                     entry_message := "Expected string" |})
  /\ fetchEither (sampleRuntime (Normal falseJsonEndpoint))
       (sampleOptions None (Some (objectWithString "name")))
     = (Normal (None, JBool false),
        [EvFetch "http://example.com/resource" None; EvBodyRead json]).
Proof.
  split; [| split].
  - destruct (success_schema_rejection
                (sampleRuntime (Normal invalidUserEndpoint))
                (sampleOptions None (Some (objectWithString "name")))
                invalidUserEndpoint
                (JObject [("name", JNumber (S754_finite false 7 0))])
                [EvBodyRead json] (objectWithString "name")
                {| zod_stack := Some "ZodError";
                   issues := [ {| path := [Key "name"];
                                  issue_message := "Expected string" |} ] |}
                eq_refl eq_refl eq_refl eq_refl eq_refl) as [Htruthy _].
    destruct (Htruthy eq_refl)
      as [v [Hrun [_ [Hinput [Hlength Hentries]]]]].
    exists v. repeat split; try assumption.
    exact (Hentries 0 _ eq_refl).
  - destruct (success_schema_rejection
                (sampleRuntime (Normal taggedEndpoint))
                (sampleOptions None (Some (objectWithStrings "tags")))
                taggedEndpoint taggedBody
                [EvBodyRead json] (objectWithStrings "tags")
                {| zod_stack := Some "ZodError";
                   issues := [ {| path := [Key "tags"; Index 1];
                                  issue_message := "Expected string" |} ] |}
                eq_refl eq_refl eq_refl eq_refl eq_refl) as [Htruthy _].
    destruct (Htruthy eq_refl)
      as [v [Hrun [_ [Hinput [_ Hentries]]]]].
    exists v. repeat split; try assumption.
    exact (Hentries 0 _ eq_refl).
  - destruct (success_schema_rejection
                (sampleRuntime (Normal falseJsonEndpoint))
                (sampleOptions None (Some (objectWithString "name")))
                falseJsonEndpoint (JBool false)
                [EvBodyRead json] (objectWithString "name")
                {| zod_stack := Some "ZodError";
                   issues := [ {| path := [];
                                  issue_message := "Expected object" |} ] |}
                eq_refl eq_refl eq_refl eq_refl eq_refl) as [_ Hfalsy].
    exact (Hfalsy eq_refl).
Defined.

Lemma transport_failure_classified_witness :
  fetchEither (sampleRuntime (Throw (ThrownError failedToFetch)))
    (sampleOptions None None)
  = (Normal (Some (Fetch
       {| fetch_base := {| message := "Failed to fetch";
                           stack := Some "TypeError: Failed to fetch" |};
          fetch_type := FetchType |}), JNull),
     [EvFetch "http://example.com/resource" None])
  /\ fetchEither (sampleRuntime (Throw (ThrownError aborted)))
       (sampleOptions None None)
     = (Normal (Some (Fetch
          {| fetch_base := {| message := "The operation was aborted.";
                              stack := None |};
             fetch_type := FetchAbort |}), JNull),
        [EvFetch "http://example.com/resource" None])
  /\ fetchEither (sampleRuntime (Throw (ThrownValue (JString "stop"))))
       (sampleOptions None None)
     = (Normal (Some (Unknown
          {| unknown_base := {| message := "unknown error";
                                stack := None |} |}), JNull),
        [EvFetch "http://example.com/resource" None])
  /\ fetchEither (sampleRuntime (Throw (ThrownError timedOut)))
       (sampleOptions None None)
     = (Normal (Some (Unknown
          {| unknown_base :=
               {| message := "The operation was aborted due to timeout";
                  stack := None |} |}), JNull),
        [EvFetch "http://example.com/resource" None]).
Proof.
  split; [| split; [| split]].
  - destruct (transport_failure_classified
                (sampleRuntime (Throw (ThrownError failedToFetch)))
                (sampleOptions None None) (ThrownError failedToFetch) eq_refl)
      as [_ [Htype _]].
    exact (Htype failedToFetch eq_refl eq_refl).
  - destruct (transport_failure_classified
                (sampleRuntime (Throw (ThrownError aborted)))
                (sampleOptions None None) (ThrownError aborted) eq_refl)
      as [Habort _].
    exact (Habort aborted eq_refl eq_refl eq_refl).
  - destruct (transport_failure_classified
                (sampleRuntime (Throw (ThrownValue (JString "stop"))))
                (sampleOptions None None) (ThrownValue (JString "stop"))
                eq_refl)
      as [_ [_ [_ [_ Hvalue]]]].
    exact (Hvalue (JString "stop") eq_refl).
  - destruct (transport_failure_classified
                (sampleRuntime (Throw (ThrownError timedOut)))
                (sampleOptions None None) (ThrownError timedOut) eq_refl)
      as [_ [_ [_ [Hother _]]]].
    refine (Hother timedOut eq_refl (or_intror (conj eq_refl _))).
    intros H. discriminate H.
Defined.

Lemma status_without_reason_phrase_witness :
  fetchEither (sampleRuntime (Normal clientClosedEndpoint))
    (sampleOptions None None)
  = (Normal (Some (Unknown
       {| unknown_base :=
            {| message := "Status code does not exist: 499";
               stack := Some "Error: Status code does not exist" |} |}),
       JNull),
     [EvFetch "http://example.com/resource" None; EvGetReasonPhrase 499]).
Proof.
  destruct (status_without_reason_phrase
              (sampleRuntime (Normal clientClosedEndpoint))
              (sampleOptions None None) clientClosedEndpoint
              eq_refl eq_refl eq_refl) as [_ [Hrun _]].
  exact Hrun.
Defined.

(** ** The scenarios of the test suite *)

Example scenario_json_with_schema :
  result (fetchEither (sampleRuntime (Normal jsonEndpoint))
            (sampleOptions None (Some (objectWithString "name"))))
  = Normal (None, JObject [("name", JString "value")]).
Proof. reflexivity. Qed.

Example scenario_malformed_json :
  result (fetchEither (sampleRuntime (Normal malformedJsonEndpoint))
            (sampleOptions None (Some (objectWithString "name"))))
  = Normal (Some (Payload
      {| payload_base :=
           {| message := "Failed to parse response";
              stack := Some "SyntaxError: Unexpected token N in JSON" |};
         responseContentType := Some "application/json";
         responseParser := Some json |}), JNull).
Proof. reflexivity. Qed.

(** A schema that throws is caught like any other failure. *)
Example scenario_throwing_schema :
  result (fetchEither (sampleRuntime (Normal jsonEndpoint))
            (sampleOptions None (Some throwingSchema)))
  = Normal (Some (Unknown
      {| unknown_base := {| message := "refinement failed";
                            stack := None |} |}), JNull).
Proof. reflexivity. Qed.

Example dotted_path :
  entry_of_issue {| path := [Key "user"; Key "emails"; Index 0];
                    issue_message := "Invalid email" |}
  = {| entry_path := "user.emails.0"; entry_message := "Invalid email" |}.
Proof. reflexivity. Qed.

(** * Further properties *)

(** ** The runs of [getResponsePayload] *)

(** One body read with the parser of the first matching rule, or none at
    all when no rule matches. *)
Lemma getResponsePayload_runs (response : Response.t) :
  (exists rule v,
     first_rule (Response.content_type response) = Some rule
     /\ reader response (snd rule) = Normal v
     /\ getResponsePayload response
        = (Normal (None, v), [EvBodyRead (snd rule)]))
  \/ (exists rule t e,
       first_rule (Response.content_type response) = Some rule
       /\ reader response (snd rule) = Throw t
       /\ extractPayload response (snd rule)
          = (Normal (Some e, JNull), [EvBodyRead (snd rule)])
       /\ getResponsePayload response
          = (Normal (Some e, JNull), [EvBodyRead (snd rule)]))
  \/ (first_rule (Response.content_type response) = None
      /\ getResponsePayload response
         = (Normal (Some (unsupportedContentType
                            (Response.content_type response)), JNull), [])).
Proof.
  rewrite getResponsePayload_first_rule.
  destruct (first_rule (Response.content_type response)) as [rule |].
  - destruct (reader response (snd rule)) as [v | t] eqn:Hread.
    + left. exists rule, v.
      split; [reflexivity | split; [assumption |]].
      now apply extractPayload_success.
    + right. left.
      destruct (extractPayload_failure response (snd rule) t Hread) as [e He].
      exists rule, t, e. rewrite He. auto.
  - right. right. now split.
Qed.

(** The failure that [extractPayload] makes of a thrown value. *)
Lemma extractPayload_failure_cases response p t e tr v :
  reader response p = Throw t ->
  extractPayload response p = (Normal (Some e, v), tr) ->
  (exists pe, e = RPPayload pe
     /\ responseContentType pe = Response.content_type response
     /\ responseParser pe = Some p
     /\ message (payload_base pe) = "Failed to parse response")
  \/ (exists u, e = RPUnknown u).
Proof.
  intros Hread. unfold extractPayload. rewrite readBody_reader, Hread.
  destruct t as [err | val]; cbn.
  - destruct (err_class err); cbn; intros H; injection H as <- _ _;
      (left; eexists; repeat split; reflexivity) || (right; eexists; reflexivity).
  - intros H. injection H as <- _ _. right. eexists. reflexivity.
Qed.

(** ** [fetchEither] without the monad *)

(** The run of [fetchEither], path by path. *)
Lemma fetchEither_unfolded (rt : Runtime) (options : FetchEitherOptions) :
  fetchEither rt options =
  match transportOutcome rt options with
  | Throw t => (Normal (classifyFailure t), [fetchEvent options])
  | Normal response =>
      if Response.ok response then
        match getResponsePayload response with
        | (Throw t, tr) =>
            (Normal (classifyFailure t), fetchEvent options :: tr)
        | (Normal (Some e, _), tr) =>
            (Normal (Some (widen e), JNull), fetchEvent options :: tr)
        | (Normal (None, body), tr) =>
            match truthy body, successPayloadSchema options with
            | true, Some schema =>
                (match safeParse schema body with
                 | Normal (SafeParseSuccess data) => Normal (None, data)
                 | Normal (SafeParseError zodError) =>
                     Normal (Some (ResponseValidation
                                     (validationError zodError body)), JNull)
                 | Throw t => Normal (classifyFailure t)
                 end,
                 fetchEvent options :: tr ++ [EvSafeParse body])
            | _, _ => (Normal (None, body), fetchEvent options :: tr)
            end
        end
      else
        match statusCodeToReasonPhrase rt (Response.status response) with
        | None =>
            (Normal (Some (Unknown
               {| unknown_base :=
                    {| message := "Status code does not exist: "
                                    ++ string_of_N (Response.status response);
                       stack := lookup_stack rt |} |}), JNull),
             [fetchEvent options;
              EvGetReasonPhrase (Response.status response)])
        | Some phrase =>
            match getResponsePayload response with
            | (Throw t, tr) =>
                (Normal (classifyFailure t),
                 fetchEvent options
                   :: EvGetReasonPhrase (Response.status response) :: tr)
            | (Normal (Some e, _), tr) =>
                (Normal (Some (widen e), JNull),
                 fetchEvent options
                   :: EvGetReasonPhrase (Response.status response) :: tr)
            | (Normal (None, payload), tr) =>
                match errorPayloadSchema options with
                | Some schema =>
                    (match safeParse schema payload with
                     | Normal (SafeParseSuccess data) =>
                         Normal (Some (Http
                           {| http_base := {| message := phrase;
                                              stack := None |};
                              code := Response.status response;
                              properties := Some data |}), JNull)
                     | Normal (SafeParseError zodError) =>
                         Normal (Some (ResponseValidation
                                         (validationError zodError payload)),
                                 JNull)
                     | Throw t => Normal (classifyFailure t)
                     end,
                     fetchEvent options
                       :: EvGetReasonPhrase (Response.status response)
                       :: tr ++ [EvSafeParse payload])
                | None =>
                    (Normal (Some (Http
                       {| http_base := {| message := phrase; stack := None |};
                          code := Response.status response;
                          properties := Some payload |}), JNull),
                     fetchEvent options
                       :: EvGetReasonPhrase (Response.status response) :: tr)
                end
            end
        end
  end.
Proof.
  unfold fetchEither, getReasonPhrase, transportOutcome, fetchEvent.
  destruct (fetch rt _ _) as [response | t]; [| reflexivity].
  cbn [bind call try_catch]. destruct (Response.ok response); cbn [negb].
  - destruct (getResponsePayload response) as [[[[e |] body] | t] tr];
      cbn; rewrite ?app_nil_r; try reflexivity.
    destruct (truthy body); [| cbn; now rewrite ?app_nil_r].
    destruct (successPayloadSchema options) as [schema |];
      [| cbn; now rewrite ?app_nil_r].
    cbn. destruct (safeParse schema body) as [[data | zodError] | t];
      cbn; now rewrite ?app_nil_r.
  - destruct (statusCodeToReasonPhrase rt _) as [phrase |]; [| reflexivity].
    destruct (getResponsePayload response) as [[[[e |] payload] | t] tr];
      cbn; rewrite ?app_nil_r; try reflexivity.
    destruct (errorPayloadSchema options) as [schema |];
      [| cbn; now rewrite ?app_nil_r].
    cbn. destruct (safeParse schema payload) as [[data | zodError] | t];
      cbn; now rewrite ?app_nil_r.
Qed.

(** ** [extractPayload], [getResponsePayload] and [matchRegex] *)

(** X1: [extractPayload] never throws and reads the body exactly once,
    with the reader of the parser it was given.  When the read succeeds
    the tuple is [[null, body]] with the body as read; when it fails the
    tuple is [[error, null]]. *)
Theorem extractPayload_never_throws
    (response : Response.t) (responseType : ResponseParser) :
  exists e v,
    extractPayload response responseType
    = (Normal (e, v), [EvBodyRead responseType])
    /\ (forall b, result (readBody response responseType) = Normal b ->
        e = None /\ v = b)
    /\ (forall t, result (readBody response responseType) = Throw t ->
        e <> None /\ v = JNull).
Proof.
  rewrite readBody_reader. cbn [result call fst].
  destruct (reader response responseType) as [b | t] eqn:Hread.
  - exists None, b. rewrite (extractPayload_success _ _ _ Hread).
    split; [reflexivity |]. split.
    + intros b' H. injection H as <-. now split.
    + intros t H. discriminate H.
  - destruct (extractPayload_failure _ _ _ Hread) as [e He].
    exists (Some e), JNull. rewrite He. split; [reflexivity |]. split.
    + intros b H. discriminate H.
    + intros t' _. split; [discriminate | reflexivity].
Qed.

(** X2: when the body reader throws a value that is not an Error (a
    string, a plain object), [extractPayload] returns an unknown error
    with the fixed message "unkown error" (spelled so in the source) and
    no stack: nothing of the thrown value is kept. *)
Theorem extractPayload_non_error_failure
    (response : Response.t) (responseType : ResponseParser) (thrown : JsValue) :
  result (readBody response responseType) = Throw (ThrownValue thrown) ->
  extractPayload response responseType
  = (Normal (Some (RPUnknown
       {| unknown_base := {| message := "unkown error"; stack := None |} |}),
       JNull),
     [EvBodyRead responseType]).
Proof.
  rewrite readBody_reader. cbn [result call fst]. intros Hread.
  unfold extractPayload. now rewrite readBody_reader, Hread.
Qed.

Lemma extractPayload_non_error_failure_witness :
  extractPayload
    (sampleResponse true 200 (Some "text/plain")
       (Throw (ThrownValue (JString "stream closed")))) text
  = (Normal (Some (RPUnknown
       {| unknown_base := {| message := "unkown error"; stack := None |} |}),
       JNull),
     [EvBodyRead text]).
Proof.
  exact (extractPayload_non_error_failure
           (sampleResponse true 200 (Some "text/plain")
              (Throw (ThrownValue (JString "stream closed"))))
           text (JString "stream closed") eq_refl).
Defined.

(** X3: [getResponsePayload] never throws and returns an error only with
    a [null] payload.  It reads the body at most once: once, with the
    parser of the first matching rule, when a rule matches the content
    type, and not at all when none does. *)
Theorem getResponsePayload_never_throws (response : Response.t) :
  exists e v,
    result (getResponsePayload response) = Normal (e, v)
    /\ (e <> None -> v = JNull)
    /\ ((first_rule (Response.content_type response) = None
         /\ trace (getResponsePayload response) = [])
        \/ (exists rule,
              first_rule (Response.content_type response) = Some rule
              /\ trace (getResponsePayload response)
                 = [EvBodyRead (snd rule)])).
Proof.
  destruct (getResponsePayload_runs response)
    as [[rule [v [Hrule [_ Hrun]]]]
       | [[rule [t [e [Hrule [_ [_ Hrun]]]]]] | [Hrule Hrun]]];
    rewrite Hrun; cbn [result trace fst snd].
  - exists None, v. split; [reflexivity |]. split.
    + intros H. now contradiction H.
    + right. now exists rule.
  - exists (Some e), JNull. split; [reflexivity |]. split; [reflexivity |].
    right. now exists rule.
  - eexists _, JNull. split; [reflexivity |]. split; [reflexivity |].
    now left.
Qed.

(** X4: a response without a Content-Type header is not parsed at all:
    the header value [null] is tested as the string "null", which no rule
    matches, so the result is the payload error "unsupported content
    type: null" with a [null] content type and no parser, and the body is
    not read. *)
Theorem getResponsePayload_missing_content_type (response : Response.t) :
  Response.content_type response = None ->
  getResponsePayload response
  = (Normal (Some (RPPayload
       {| payload_base := {| message := "unsupported content type: null";
                             stack := None |};
          responseContentType := None;
          responseParser := None |}), JNull),
     []).
Proof.
  intros Hct. rewrite getResponsePayload_first_rule, Hct. reflexivity.
Qed.

Lemma getResponsePayload_missing_content_type_witness :
  getResponsePayload untypedEndpoint
  = (Normal (Some (RPPayload
       {| payload_base := {| message := "unsupported content type: null";
                             stack := None |};
          responseContentType := None;
          responseParser := None |}), JNull),
     []).
Proof.
  exact (getResponsePayload_missing_content_type untypedEndpoint eq_refl).
Defined.

(** X5: [matchRegex] with a pattern of literal characters accepts a
    string exactly when the pattern occurs somewhere in it, letter case
    included; it is not anchored at either end.  Given [null] it tests the
    string "null". *)
Theorem matchRegex_literal_is_substring_search :
  (forall p s,
     matchRegex (literal p) (Some s) = true
     <-> exists before after, s = (before ++ p ++ after)%string)
  /\ (forall expr, matchRegex expr None = matchRegex expr (Some "null")).
Proof.
  split.
  - intros p s. unfold matchRegex. cbn [string_of_nullable].
    apply test_literal.
  - reflexivity.
Qed.

(** X6: a content type that contains "application/json" anywhere (with a
    charset parameter after it, or anything before it) is read with the
    json parser, whatever else it contains. *)
Theorem json_content_type_with_parameters
    (response : Response.t) (before after : string) :
  Response.content_type response
  = Some (before ++ "application/json" ++ after)%string ->
  getResponsePayload response = extractPayload response json.
Proof.
  intros Hct. rewrite getResponsePayload_first_rule.
  assert (Hjson : matchRegex (literal "application/json")
                    (Response.content_type response) = true).
  { rewrite Hct. unfold matchRegex. cbn [string_of_nullable].
    apply test_literal. eauto. }
  unfold first_rule, contentTypeRules. cbn [find fst]. rewrite Hjson.
  reflexivity.
Qed.

Lemma json_content_type_with_parameters_witness :
  getResponsePayload
    (sampleResponse true 200 (Some "application/json; charset=utf-8")
       (Normal userBody))
  = extractPayload
      (sampleResponse true 200 (Some "application/json; charset=utf-8")
         (Normal userBody)) json.
Proof.
  exact (json_content_type_with_parameters
           (sampleResponse true 200 (Some "application/json; charset=utf-8")
              (Normal userBody))
           "" "; charset=utf-8" eq_refl).
Defined.

(** X7: a payload error of [getResponsePayload] always carries the
    declared content type of the response.  It names a parser exactly
    when that parser was tried on the body and failed (message "Failed to
    parse response", one body read); without a parser it is the
    unsupported-content-type error and the body was not read. *)
Theorem payload_error_names_the_parser_tried
    (response : Response.t) (e : PayloadError) (v : JsValue)
    (tr : list Event) :
  getResponsePayload response = (Normal (Some (RPPayload e), v), tr) ->
  responseContentType e = Response.content_type response
  /\ ((exists p,
         responseParser e = Some p
         /\ option_map snd (first_rule (Response.content_type response))
            = Some p
         /\ message (payload_base e) = "Failed to parse response"
         /\ tr = [EvBodyRead p])
      \/ (responseParser e = None
          /\ first_rule (Response.content_type response) = None
          /\ message (payload_base e)
             = ("unsupported content type: "
                ++ string_of_nullable (Response.content_type response))%string
          /\ tr = [])).
Proof.
  destruct (getResponsePayload_runs response)
    as [[rule [b [Hrule [_ Hrun]]]]
       | [[rule [t [e' [Hrule [Hread [Hextract Hrun]]]]]] | [Hrule Hrun]]];
    rewrite Hrun; intros H.
  - discriminate H.
  - injection H as -> _ <-.
    destruct (extractPayload_failure_cases _ _ _ _ _ _ Hread Hextract)
      as [[pe [Hpe [Hct [Hparser Hmessage]]]] | [u Hu]];
      [| discriminate Hu].
    injection Hpe as <-. split; [exact Hct |]. left.
    exists (snd rule). rewrite Hrule. auto.
  - injection H as <- _ <-. split; [reflexivity |]. right. auto.
Qed.

Lemma payload_error_names_the_parser_tried_witness :
  responseContentType
    {| payload_base :=
         {| message := "Failed to parse response";
            stack := Some "SyntaxError: Unexpected token N in JSON" |};
       responseContentType := Some "application/json";
       responseParser := Some json |}
  = Response.content_type malformedJsonEndpoint.
Proof.
  exact (proj1 (payload_error_names_the_parser_tried malformedJsonEndpoint
                  _ JNull [EvBodyRead json] eq_refl)).
Defined.

(** ** [fetchEither]: what each path can and cannot return *)

(** The [catch] block builds a fetch error or an unknown error, nothing
    else. *)
Lemma classifyFailure_variant (t : Thrown) :
  (exists f, classifyFailure t = (Some (Fetch f), JNull))
  \/ (exists u, classifyFailure t = (Some (Unknown u), JNull)).
Proof.
  destruct t as [e | v]; [| right; cbn; eauto].
  unfold classifyFailure.
  destruct (err_class e) eqn:Hc; cbn; rewrite Hc; cbn; eauto.
  destruct (String.eqb (err_name e) "AbortError"); cbn; eauto.
Qed.

Lemma widen_variant (e : ResponsePayloadError) :
  (exists p, widen e = Payload p) \/ (exists u, widen e = Unknown u).
Proof. destruct e; cbn; eauto. Qed.

Section FetchEitherPaths.

Variable rt : Runtime.
Variable options : FetchEitherOptions.

(** X8: for an ok response whose body is extracted, when no success
    schema is given or the body is falsy, the value is the body exactly
    as decoded, the error slot is null and no schema is run, whatever a
    given schema would have said about a falsy body. *)
Theorem success_without_validation
    (response : Response.t) (body : JsValue) (tr : list Event) :
  transportOutcome rt options = Normal response ->
  Response.ok response = true ->
  getResponsePayload response = (Normal (None, body), tr) ->
  successPayloadSchema options = None \/ truthy body = false ->
  fetchEither rt options = (Normal (None, body), fetchEvent options :: tr).
Proof.
  intros Hfetch Hok Hbody Hskip.
  rewrite fetchEither_unfolded, Hfetch, Hok, Hbody.
  destruct Hskip as [-> | ->]; [now destruct (truthy body) | reflexivity].
Qed.

(** X9: for an ok response whose body cannot be extracted (unsupported
    content type or a failed read), the extraction error is returned as
    it is with a null value, and the success schema is not run. *)
Theorem success_path_extraction_failure
    (response : Response.t) (e : ResponsePayloadError) (v : JsValue)
    (tr : list Event) :
  transportOutcome rt options = Normal response ->
  Response.ok response = true ->
  getResponsePayload response = (Normal (Some e, v), tr) ->
  fetchEither rt options
  = (Normal (Some (widen e), JNull), fetchEvent options :: tr).
Proof.
  intros Hfetch Hok Herr.
  now rewrite fetchEither_unfolded, Hfetch, Hok, Herr.
Qed.

(** X10: a non-ok response never yields a value: whatever its status,
    body and the schemas, the error slot is non-null and the value slot is
    null. *)
Theorem non_ok_response_never_yields_value (response : Response.t) :
  transportOutcome rt options = Normal response ->
  Response.ok response = false ->
  exists e, result (fetchEither rt options) = Normal (Some e, JNull).
Proof.
  intros Hfetch Hok. rewrite fetchEither_unfolded, Hfetch, Hok.
  destruct (statusCodeToReasonPhrase rt _) as [phrase |]; [| cbn; eauto].
  destruct (getResponsePayload_shape response)
    as [[payload [tr Hrun]] | [e [tr Hrun]]]; rewrite Hrun; [| cbn; eauto].
  destruct (errorPayloadSchema options) as [schema |]; [| cbn; eauto].
  destruct (safeParse schema payload) as [[data | zodError] | t];
    cbn; eauto.
  destruct (classifyFailure_error t) as [e [-> _]]. eauto.
Qed.

(** X11: an http error is returned only for a non-ok response whose
    status has a reason phrase and whose body was extracted: its code is
    the status of that response, its message the reason phrase, it has no
    stack, and its properties are always set (to the payload or to the
    error schema's output). *)
Theorem http_error_origin (h : HttpError) (v : JsValue) :
  result (fetchEither rt options) = Normal (Some (Http h), v) ->
  exists response phrase payload tr,
    transportOutcome rt options = Normal response
    /\ Response.ok response = false
    /\ statusCodeToReasonPhrase rt (Response.status response) = Some phrase
    /\ getResponsePayload response = (Normal (None, payload), tr)
    /\ code h = Response.status response
    /\ http_base h = {| message := phrase; stack := None |}
    /\ ((errorPayloadSchema options = None /\ properties h = Some payload)
        \/ (exists schema data,
              errorPayloadSchema options = Some schema
              /\ safeParse schema payload = Normal (SafeParseSuccess data)
              /\ properties h = Some data)).
Proof.
  rewrite fetchEither_unfolded.
  destruct (transportOutcome rt options) as [response | t] eqn:Hfetch.
  2: { destruct (classifyFailure_variant t) as [[f ->] | [u ->]];
       intros H; discriminate H. }
  destruct (Response.ok response) eqn:Hok.
  - destruct (getResponsePayload_shape response)
      as [[body [tr Hrun]] | [e [tr Hrun]]]; rewrite Hrun.
    + destruct (truthy body);
        [destruct (successPayloadSchema options) as [schema |] |];
        try (intros H; discriminate H).
      destruct (safeParse schema body) as [[data | zodError] | t];
        try (intros H; discriminate H).
      destruct (classifyFailure_variant t) as [[f ->] | [u ->]];
        intros H; discriminate H.
    + destruct (widen_variant e) as [[p ->] | [u ->]];
        intros H; discriminate H.
  - destruct (statusCodeToReasonPhrase rt _) as [phrase |] eqn:Hphrase;
      [| intros H; discriminate H].
    destruct (getResponsePayload_shape response)
      as [[payload [tr Hrun]] | [e [tr Hrun]]]; rewrite Hrun.
    + destruct (errorPayloadSchema options) as [schema |] eqn:Hschema.
      * destruct (safeParse schema payload) as [[data | zodError] | t]
          eqn:Hparse.
        -- intros H. cbn in H. injection H as <- _.
           exists response, phrase, payload, tr.
           repeat (split; [reflexivity || assumption |]).
           right. exists schema, data. auto.
        -- intros H. discriminate H.
        -- destruct (classifyFailure_variant t) as [[f ->] | [u ->]];
             intros H; discriminate H.
      * intros H. cbn in H. injection H as <- _.
        exists response, phrase, payload, tr.
        repeat (split; [reflexivity || assumption |]).
        left. auto.
    + destruct (widen_variant e) as [[p ->] | [u ->]];
        intros H; discriminate H.
Qed.

(** X12: a validation error is returned only when a schema was given,
    was run on the extracted payload and rejected it: the error schema for
    a non-ok response, the success schema for an ok response with a truthy
    body.  Its input is the payload the schema was run on. *)
Theorem validation_error_origin (e : ResponseValidationError) (v : JsValue) :
  result (fetchEither rt options) = Normal (Some (ResponseValidation e), v) ->
  exists response payload tr schema zodError,
    transportOutcome rt options = Normal response
    /\ getResponsePayload response = (Normal (None, payload), tr)
    /\ safeParse schema payload = Normal (SafeParseError zodError)
    /\ input e = payload
    /\ errors e = map entry_of_issue (issues zodError)
    /\ ((Response.ok response = true
         /\ truthy payload = true
         /\ successPayloadSchema options = Some schema)
        \/ (Response.ok response = false
            /\ errorPayloadSchema options = Some schema)).
Proof.
  rewrite fetchEither_unfolded.
  destruct (transportOutcome rt options) as [response | t] eqn:Hfetch.
  2: { destruct (classifyFailure_variant t) as [[f ->] | [u ->]];
       intros H; discriminate H. }
  destruct (Response.ok response) eqn:Hok.
  - destruct (getResponsePayload_shape response)
      as [[body [tr Hrun]] | [pe [tr Hrun]]]; rewrite Hrun.
    + destruct (truthy body) eqn:Htruthy;
        [destruct (successPayloadSchema options) as [schema |] eqn:Hschema |];
        try (intros H; discriminate H).
      destruct (safeParse schema body) as [[data | zodError] | t] eqn:Hparse.
      * intros H. discriminate H.
      * intros H. cbn in H. injection H as <- _.
        exists response, body, tr, schema, zodError.
        repeat (split; [reflexivity || assumption |]). left. auto.
      * destruct (classifyFailure_variant t) as [[f ->] | [u ->]];
          intros H; discriminate H.
    + destruct (widen_variant pe) as [[p ->] | [u ->]];
        intros H; discriminate H.
  - destruct (statusCodeToReasonPhrase rt _) as [phrase |];
      [| intros H; discriminate H].
    destruct (getResponsePayload_shape response)
      as [[payload [tr Hrun]] | [pe [tr Hrun]]]; rewrite Hrun.
    + destruct (errorPayloadSchema options) as [schema |] eqn:Hschema;
        [| intros H; discriminate H].
      destruct (safeParse schema payload) as [[data | zodError] | t]
        eqn:Hparse.
      * intros H. discriminate H.
      * intros H. cbn in H. injection H as <- _.
        exists response, payload, tr, schema, zodError.
        repeat (split; [reflexivity || assumption |]). right. auto.
      * destruct (classifyFailure_variant t) as [[f ->] | [u ->]];
          intros H; discriminate H.
    + destruct (widen_variant pe) as [[p ->] | [u ->]];
        intros H; discriminate H.
Qed.

(** X13: a failure thrown by a schema's [safeParse] is caught by the
    same [catch] block as a failure of the transport and classified the
    same way, on the success path and on the error path.  So a TypeError
    thrown inside a schema is reported as a fetch error of type "type"
    although the transport succeeded. *)
Theorem schema_failure_is_classified_like_transport_failure
    (response : Response.t) (payload : JsValue) (tr : list Event)
    (schema : ZodSchema) (t : Thrown) :
  transportOutcome rt options = Normal response ->
  getResponsePayload response = (Normal (None, payload), tr) ->
  safeParse schema payload = Throw t ->
  (Response.ok response = true ->
   truthy payload = true ->
   successPayloadSchema options = Some schema ->
   fetchEither rt options
   = (Normal (classifyFailure t),
      fetchEvent options :: tr ++ [EvSafeParse payload]))
  /\ (Response.ok response = false ->
      statusCodeToReasonPhrase rt (Response.status response) <> None ->
      errorPayloadSchema options = Some schema ->
      fetchEither rt options
      = (Normal (classifyFailure t),
         fetchEvent options :: EvGetReasonPhrase (Response.status response)
           :: tr ++ [EvSafeParse payload]))
  /\ (forall e, t = ThrownError e -> err_class e = TypeError ->
      classifyFailure t
      = (Some (Fetch {| fetch_base := {| message := err_message e;
                                         stack := err_stack e |};
                        fetch_type := FetchType |}), JNull)).
Proof.
  intros Hfetch Hbody Hparse. split; [| split].
  - intros Hok Htruthy Hschema.
    now rewrite fetchEither_unfolded, Hfetch, Hok, Hbody, Htruthy, Hschema,
      Hparse.
  - intros Hok Hphrase Hschema.
    rewrite fetchEither_unfolded, Hfetch, Hok.
    destruct (statusCodeToReasonPhrase rt _) as [phrase |];
      [| now contradiction Hphrase].
    now rewrite Hbody, Hschema, Hparse.
  - intros e -> Hclass. unfold classifyFailure. cbn. now rewrite Hclass.
Qed.

(** X14: every run calls the transport exactly once, first, with the
    request info and [requestInit ?? undefined]; after that it looks up a
    reason phrase at most once, reads the body at most once and runs a
    schema at most once. *)
Theorem fetchEither_calls_each_collaborator_at_most_once :
  exists rest,
    trace (fetchEither rt options) = fetchEvent options :: rest
    /\ calls is_fetch rest = 0
    /\ calls is_lookup rest <= 1
    /\ calls is_body_read rest <= 1
    /\ calls is_safe_parse rest <= 1.
Proof.
  rewrite fetchEither_unfolded. unfold fetchEvent, calls.
  destruct (transportOutcome rt options) as [response | t];
    [| eexists; split; [reflexivity |]; cbn; auto].
  destruct (Response.ok response).
  - destruct (getResponsePayload_runs response)
      as [[rule [v [_ [_ Hrun]]]]
         | [[rule [t [e [_ [_ [_ Hrun]]]]]] | [_ Hrun]]];
      rewrite Hrun;
      try (eexists; split; [reflexivity |]; cbn; auto; fail).
    destruct (truthy v);
      [destruct (successPayloadSchema options) as [schema |] |];
      eexists; (split; [reflexivity |]); cbn; auto.
  - destruct (statusCodeToReasonPhrase rt _) as [phrase |];
      [| eexists; split; [reflexivity |]; cbn; auto].
    destruct (getResponsePayload_runs response)
      as [[rule [v [_ [_ Hrun]]]]
         | [[rule [t [e [_ [_ [_ Hrun]]]]]] | [_ Hrun]]];
      rewrite Hrun;
      try (eexists; split; [reflexivity |]; cbn; auto; fail).
    destruct (errorPayloadSchema options) as [schema |];
      eexists; (split; [reflexivity |]); cbn; auto.
Qed.

(** X15: the reason phrase is looked up exactly for the non-ok
    responses, right after the fetch and before the body is touched; for
    an ok response there is no lookup (so an ok status without a phrase,
    like 299, does no harm). *)
Theorem reason_phrase_lookup_only_for_non_ok (response : Response.t) :
  transportOutcome rt options = Normal response ->
  (Response.ok response = false ->
   exists rest,
     trace (fetchEither rt options)
     = fetchEvent options :: EvGetReasonPhrase (Response.status response)
         :: rest
     /\ calls is_lookup rest = 0)
  /\ (Response.ok response = true ->
      calls is_lookup (trace (fetchEither rt options)) = 0).
Proof.
  intros Hfetch. rewrite fetchEither_unfolded, Hfetch.
  unfold fetchEvent, calls. split; intros ->.
  - destruct (statusCodeToReasonPhrase rt _) as [phrase |];
      [| eexists; split; reflexivity].
    destruct (getResponsePayload_runs response)
      as [[rule [v [_ [_ Hrun]]]]
         | [[rule [t [e [_ [_ [_ Hrun]]]]]] | [_ Hrun]]];
      rewrite Hrun;
      try (eexists; split; reflexivity).
    destruct (errorPayloadSchema options) as [schema |];
      eexists; split; reflexivity.
  - destruct (getResponsePayload_runs response)
      as [[rule [v [_ [_ Hrun]]]]
         | [[rule [t [e [_ [_ [_ Hrun]]]]]] | [_ Hrun]]];
      rewrite Hrun; try reflexivity.
    destruct (truthy v);
      [destruct (successPayloadSchema options) as [schema |] |];
      reflexivity.
Qed.

End FetchEitherPaths.

(** X16: the error schema plays no part for an ok response: two calls
    that differ only in [errorPayloadSchema] run alike, with the same
    result and the same calls. *)
Theorem error_schema_unused_for_ok_response
    (rt : Runtime) (options options' : FetchEitherOptions)
    (response : Response.t) :
  requestInfo options' = requestInfo options ->
  requestInit options' = requestInit options ->
  successPayloadSchema options' = successPayloadSchema options ->
  transportOutcome rt options = Normal response ->
  Response.ok response = true ->
  fetchEither rt options' = fetchEither rt options.
Proof.
  intros Hinfo Hinit Hsuccess Hfetch Hok.
  rewrite !fetchEither_unfolded. unfold transportOutcome, fetchEvent in *.
  rewrite Hinfo, Hinit, Hsuccess, Hfetch, Hok. reflexivity.
Qed.

(** X17: the success schema plays no part for a non-ok response: two
    calls that differ only in [successPayloadSchema] run alike. *)
Theorem success_schema_unused_for_non_ok_response
    (rt : Runtime) (options options' : FetchEitherOptions)
    (response : Response.t) :
  requestInfo options' = requestInfo options ->
  requestInit options' = requestInit options ->
  errorPayloadSchema options' = errorPayloadSchema options ->
  transportOutcome rt options = Normal response ->
  Response.ok response = false ->
  fetchEither rt options' = fetchEither rt options.
Proof.
  intros Hinfo Hinit Herror Hfetch Hok.
  rewrite !fetchEither_unfolded. unfold transportOutcome, fetchEvent in *.
  rewrite Hinfo, Hinit, Herror, Hfetch, Hok. reflexivity.
Qed.

(** ** The further properties at the sample endpoints *)

Lemma success_without_validation_witness :
  fetchEither (sampleRuntime (Normal textEndpoint)) (sampleOptions None None)
  = (Normal (None, JString "Some text data"),
     [EvFetch "http://example.com/resource" None; EvBodyRead text])
  /\ fetchEither (sampleRuntime (Normal emptyTextEndpoint))
       (sampleOptions None (Some (objectWithString "name")))
     = (Normal (None, JString ""),
        [EvFetch "http://example.com/resource" None; EvBodyRead text]).
Proof.
  split.
  - exact (success_without_validation
             (sampleRuntime (Normal textEndpoint)) (sampleOptions None None)
             textEndpoint (JString "Some text data") [EvBodyRead text]
             eq_refl eq_refl eq_refl (or_introl eq_refl)).
  - exact (success_without_validation
             (sampleRuntime (Normal emptyTextEndpoint))
             (sampleOptions None (Some (objectWithString "name")))
             emptyTextEndpoint (JString "") [EvBodyRead text]
             eq_refl eq_refl eq_refl (or_intror eq_refl)).
Defined.

Lemma success_path_extraction_failure_witness :
  fetchEither (sampleRuntime (Normal untypedEndpoint))
    (sampleOptions None (Some (objectWithString "name")))
  = (Normal (Some (Payload
       {| payload_base := {| message := "unsupported content type: null";
                             stack := None |};
          responseContentType := None;
          responseParser := None |}), JNull),
     [EvFetch "http://example.com/resource" None]).
Proof.
  exact (success_path_extraction_failure
           (sampleRuntime (Normal untypedEndpoint))
           (sampleOptions None (Some (objectWithString "name")))
           untypedEndpoint (unsupportedContentType None) JNull []
           eq_refl eq_refl eq_refl).
Defined.

Lemma non_ok_response_never_yields_value_witness :
  exists e,
    result (fetchEither (sampleRuntime (Normal notFoundTextEndpoint))
              (sampleOptions None (Some stringOrNone)))
    = Normal (Some e, JNull).
Proof.
  exact (non_ok_response_never_yields_value
           (sampleRuntime (Normal notFoundTextEndpoint))
           (sampleOptions None (Some stringOrNone))
           notFoundTextEndpoint eq_refl eq_refl).
Defined.

Lemma http_error_origin_witness :
  exists response phrase,
    transportOutcome (sampleRuntime (Normal errorEndpoint))
      (sampleOptions None None) = Normal response
    /\ Response.ok response = false
    /\ sampleReasonPhrases (Response.status response) = Some phrase
    /\ Response.status response = 500%N
    /\ phrase = "Internal Server Error".
Proof.
  destruct (http_error_origin
              (sampleRuntime (Normal errorEndpoint)) (sampleOptions None None)
              {| http_base := {| message := "Internal Server Error";
                                 stack := None |};
                 code := 500;
                 properties := Some serverErrorBody |}
              JNull eq_refl)
    as [response [phrase [payload [tr
         [Hfetch [Hok [Hphrase [_ [Hcode [Hbase _]]]]]]]]]].
  exists response, phrase. cbn [code http_base] in Hcode, Hbase.
  injection Hbase as Hmessage.
  repeat split; try assumption; now symmetry.
Defined.

Lemma validation_error_origin_witness :
  exists response payload tr schema zodError,
    transportOutcome (sampleRuntime (Normal invalidUserEndpoint))
      (sampleOptions None (Some (objectWithString "name")))
    = Normal response
    /\ getResponsePayload response = (Normal (None, payload), tr)
    /\ safeParse schema payload = Normal (SafeParseError zodError)
    /\ payload = JObject [("name", JNumber (S754_finite false 7 0))].
Proof.
  destruct (validation_error_origin
              (sampleRuntime (Normal invalidUserEndpoint))
              (sampleOptions None (Some (objectWithString "name")))
              (validationError
                 {| zod_stack := Some "ZodError";
                    issues := [ {| path := [Key "name"];
                                   issue_message := "Expected string" |} ] |}
                 (JObject [("name", JNumber (S754_finite false 7 0))]))
              JNull eq_refl)
    as [response [payload [tr [schema [zodError
         [Hfetch [Hbody [Hparse [Hinput _]]]]]]]]].
  exists response, payload, tr, schema, zodError.
  cbn [validationError input] in Hinput.
  repeat split; try assumption; now symmetry.
Defined.

Lemma schema_failure_is_classified_like_transport_failure_witness :
  fetchEither (sampleRuntime (Normal jsonEndpoint))
    (sampleOptions None (Some brokenSchema))
  = (Normal (Some (Fetch
       {| fetch_base :=
            {| message := "check is not a function";
               stack := Some "TypeError: check is not a function" |};
          fetch_type := FetchType |}), JNull),
     [EvFetch "http://example.com/resource" None; EvBodyRead json;
      EvSafeParse userBody])
  /\ fetchEither (sampleRuntime (Normal errorEndpoint))
       (sampleOptions (Some throwingSchema) None)
     = (Normal (Some (Unknown
          {| unknown_base := {| message := "refinement failed";
                                stack := None |} |}), JNull),
        [EvFetch "http://example.com/resource" None; EvGetReasonPhrase 500;
         EvBodyRead json; EvSafeParse serverErrorBody]).
Proof.
  split.
  - destruct (schema_failure_is_classified_like_transport_failure
                (sampleRuntime (Normal jsonEndpoint))
                (sampleOptions None (Some brokenSchema))
                jsonEndpoint userBody [EvBodyRead json] brokenSchema
                (ThrownError notAFunction) eq_refl eq_refl eq_refl)
      as [Hsuccess _].
    exact (Hsuccess eq_refl eq_refl eq_refl).
  - destruct (schema_failure_is_classified_like_transport_failure
                (sampleRuntime (Normal errorEndpoint))
                (sampleOptions (Some throwingSchema) None)
                errorEndpoint serverErrorBody [EvBodyRead json] throwingSchema
                _ eq_refl eq_refl eq_refl)
      as [_ [Herror _]].
    refine (Herror eq_refl _ eq_refl). intros H. discriminate H.
Defined.

Lemma reason_phrase_lookup_only_for_non_ok_witness :
  calls is_lookup
    (trace (fetchEither (sampleRuntime (Normal jsonEndpoint))
              (sampleOptions None None))) = 0
  /\ exists rest,
       trace (fetchEither (sampleRuntime (Normal errorEndpoint))
                (sampleOptions None None))
       = EvFetch "http://example.com/resource" None
           :: EvGetReasonPhrase 500 :: rest
       /\ calls is_lookup rest = 0.
Proof.
  split.
  - exact (proj2 (reason_phrase_lookup_only_for_non_ok
                    (sampleRuntime (Normal jsonEndpoint))
                    (sampleOptions None None) jsonEndpoint eq_refl) eq_refl).
  - exact (proj1 (reason_phrase_lookup_only_for_non_ok
                    (sampleRuntime (Normal errorEndpoint))
                    (sampleOptions None None) errorEndpoint eq_refl) eq_refl).
Defined.

Lemma error_schema_unused_for_ok_response_witness :
  fetchEither (sampleRuntime (Normal jsonEndpoint))
    (sampleOptions (Some throwingSchema) (Some (objectWithString "name")))
  = fetchEither (sampleRuntime (Normal jsonEndpoint))
      (sampleOptions None (Some (objectWithString "name"))).
Proof.
  exact (error_schema_unused_for_ok_response
           (sampleRuntime (Normal jsonEndpoint))
           (sampleOptions None (Some (objectWithString "name")))
           (sampleOptions (Some throwingSchema)
              (Some (objectWithString "name")))
           jsonEndpoint eq_refl eq_refl eq_refl eq_refl eq_refl).
Defined.

Lemma success_schema_unused_for_non_ok_response_witness :
  fetchEither (sampleRuntime (Normal errorEndpoint))
    (sampleOptions (Some (objectWithString "error")) (Some throwingSchema))
  = fetchEither (sampleRuntime (Normal errorEndpoint))
      (sampleOptions (Some (objectWithString "error")) None).
Proof.
  exact (success_schema_unused_for_non_ok_response
           (sampleRuntime (Normal errorEndpoint))
           (sampleOptions (Some (objectWithString "error")) None)
           (sampleOptions (Some (objectWithString "error"))
              (Some throwingSchema))
           errorEndpoint eq_refl eq_refl eq_refl eq_refl eq_refl).
Defined.
